(** * ML agent daemon: package-manager descriptor ingestion (daemon/pkg-mgr.cc)

    A shallow embedding of [_get_app_info], [_parse_json],
    [_pkg_mgr_echo_pkg_path_info] and [_pkg_mgr_event_cb], and the properties
    of the descriptor-ingestion pipeline proved over it.

    Conventions.
    - A [const gchar *] is a Rocq [string]; a pointer that may be [NULL] is an
      [option].  Where the C code reads a string up to its terminating NUL
      ([g_ascii_strcasecmp]) the model does the same: [EmptyString] and the
      character of code 0 both end the string.
    - [gint], [guint] and the Tizen return codes are [Z]; loop counters over a
      JSON array are [nat].
    - The service database (service-db-util.h), the Tizen package manager,
      the file system and the json-glib generator and file loader are outside
      pkg-mgr.cc: they are interfaces ([ServiceDb], [Platform]) over which
      every theorem is universally quantified.
    - Every side effect of the code is recorded, in program order, in a trace
      of [event]s next to the database state that is threaded through. *)

From Stdlib Require Import ZArith List Bool Ascii String Lia.
From Stdlib Require Import DecimalString.
Import ListNotations.
Open Scope string_scope.
Open Scope Z_scope.
Open Scope list_scope.

Set Implicit Arguments.
#[local] Set Warnings "-register-all".

(* ------------------------------------------------------------------ *)
(** ** C strings and GLib string helpers *)

Definition char_code (c : ascii) : Z := Z.of_N (N_of_ascii c).

(** The byte a C string pointer points at: the code of the first byte, 0 at
    the end. *)
Definition cstr_head (s : string) : Z :=
  match s with
  | EmptyString => 0
  | String c _ => char_code c
  end.

(** gstrfuncs.c: [#define ISUPPER(c) ((c) >= 'A' && (c) <= 'Z')]. *)
Definition ISUPPER (c : ascii) : bool :=
  (65 <=? char_code c) && (char_code c <=? 90).

(** gstrfuncs.c: [#define TOLOWER(c) (ISUPPER (c) ? (c) - 'A' + 'a' : (c))]. *)
Definition TOLOWER (c : ascii) : ascii :=
  if ISUPPER c then ascii_of_N (Z.to_N (char_code c - 65 + 97)) else c.

(** [g_ascii_strcasecmp (s1, s2)]: the loop, which runs while neither
    string is at its end, compares the
    lowered bytes and returns their difference at the first mismatch; after
    the loop it returns the difference of the two current bytes. *)
Fixpoint g_ascii_strcasecmp (s1 s2 : string) : Z :=
  match s1, s2 with
  | String a r1, String b r2 =>
      if (char_code a =? 0) || (char_code b =? 0)
      then cstr_head s1 - cstr_head s2
      else
        let c1 := char_code (TOLOWER a) in
        let c2 := char_code (TOLOWER b) in
        if c1 =? c2 then g_ascii_strcasecmp r1 r2 else c1 - c2
  | _, _ => cstr_head s1 - cstr_head s2
  end.

(** The C string held in a buffer: its bytes before the first NUL. *)
Fixpoint c_str (s : string) : string :=
  match s with
  | EmptyString => EmptyString
  | String c r => if char_code c =? 0 then EmptyString else String c (c_str r)
  end.

Fixpoint ascii_lower (s : string) : string :=
  match s with
  | EmptyString => EmptyString
  | String c r => String (TOLOWER c) (ascii_lower r)
  end.

(** Equality of two C strings under ASCII case-insensitive comparison. *)
Definition ascii_ci_eq (s t : string) : Prop :=
  ascii_lower (c_str s) = ascii_lower (c_str t).

(* ------------------------------------------------------------------ *)
(** ** json-glib data model *)

(** The scalar held by a [JSON_NODE_VALUE] node.  Numbers are never read by
    pkg-mgr.cc; an integer keeps its value and a double its literal. *)
Inductive JsonValue : Type :=
| JsonInt (i : Z)
| JsonDouble (literal : string)
| JsonBoolean (b : bool)
| JsonString (s : string).

(** [JsonNode]: node types JSON_NODE_OBJECT, JSON_NODE_ARRAY, JSON_NODE_VALUE
    and JSON_NODE_NULL.  An object lists its members in insertion order; a
    member name is looked up from the front. *)
Inductive JsonNode : Type :=
| JsonObjectNode (members : list (string * JsonNode))
| JsonArrayNode (elements : list JsonNode)
| JsonValueNode (v : JsonValue)
| JsonNullNode.

Definition JsonObject : Type := list (string * JsonNode).
Definition JsonArray : Type := list JsonNode.

(** [JSON_NODE_HOLDS_ARRAY (node)]; a [NULL] node has type JSON_NODE_NULL. *)
Definition JSON_NODE_HOLDS_ARRAY (node : option JsonNode) : bool :=
  match node with
  | Some (JsonArrayNode _) => true
  | _ => false
  end.

Definition json_node_get_array (node : option JsonNode) : option JsonArray :=
  match node with
  | Some (JsonArrayNode a) => Some a
  | _ => None
  end.

(** [json_node_get_object]: [NULL] unless the node holds an object. *)
Definition json_node_get_object (node : option JsonNode) : option JsonObject :=
  match node with
  | Some (JsonObjectNode o) => Some o
  | _ => None
  end.

Definition json_array_get_length (array : JsonArray) : nat := List.length array.

(** [json_array_get_object_element]: [NULL] when the index is out of range or
    the element is not an object. *)
Definition json_array_get_object_element (array : JsonArray) (index_ : nat)
  : option JsonObject :=
  json_node_get_object (nth_error array index_).

Fixpoint object_get_member_internal (object : JsonObject) (member_name : string)
  : option JsonNode :=
  match object with
  | [] => None
  | (k, v) :: rest =>
      if String.eqb k member_name then Some v
      else object_get_member_internal rest member_name
  end.

(** [json_node_get_string]: the string of a value node holding a string,
    [NULL] for every other node. *)
Definition json_node_get_string (node : JsonNode) : option string :=
  match node with
  | JsonValueNode (JsonString s) => Some s
  | _ => None
  end.

(** [json_object_get_string_member]: [NULL] for a [NULL] object, for a member
    that is not there and for a member that does not hold a string. *)
Definition json_object_get_string_member (object : option JsonObject)
    (member_name : string) : option string :=
  match object with
  | None => None
  | Some o =>
      match object_get_member_internal o member_name with
      | None => None
      | Some node => json_node_get_string node
      end
  end.

(* ------------------------------------------------------------------ *)
(** ** Enumerations *)

(** [mlsvc_json_type_e]. *)
Inductive mlsvc_json_type_e : Type :=
| MLSVC_JSON_MODEL
| MLSVC_JSON_PIPELINE
| MLSVC_JSON_RESOURCE
| MLSVC_JSON_MAX.

Definition mlsvc_json_type_value (t : mlsvc_json_type_e) : Z :=
  match t with
  | MLSVC_JSON_MODEL => 0
  | MLSVC_JSON_PIPELINE => 1
  | MLSVC_JSON_RESOURCE => 2
  | MLSVC_JSON_MAX => 3
  end.

(** Tizen [package_manager_event_type_e]. *)
Inductive package_manager_event_type_e : Type :=
| PACKAGE_MANAGER_EVENT_TYPE_INSTALL
| PACKAGE_MANAGER_EVENT_TYPE_UNINSTALL
| PACKAGE_MANAGER_EVENT_TYPE_UPDATE
| PACKAGE_MANAGER_EVENT_TYPE_MOVE
| PACKAGE_MANAGER_EVENT_TYPE_CLEAR
| PACKAGE_MANAGER_EVENT_TYPE_RES_COPY
| PACKAGE_MANAGER_EVENT_TYPE_RES_CREATE_DIR
| PACKAGE_MANAGER_EVENT_TYPE_RES_REMOVE
| PACKAGE_MANAGER_EVENT_TYPE_RES_UNINSTALL.

(** Tizen [package_manager_event_state_e]. *)
Inductive package_manager_event_state_e : Type :=
| PACKAGE_MANAGER_EVENT_STATE_STARTED
| PACKAGE_MANAGER_EVENT_STATE_PROCESSING
| PACKAGE_MANAGER_EVENT_STATE_COMPLETED
| PACKAGE_MANAGER_EVENT_STATE_FAILED.

Definition PACKAGE_MANAGER_ERROR_NONE : Z := 0.

(** GLib [GFileTest] bits. *)
Definition GFileTest : Type := Z.
Definition G_FILE_TEST_IS_REGULAR : Z := Z.shiftl 1 0.
Definition G_FILE_TEST_IS_SYMLINK : Z := Z.shiftl 1 1.
Definition G_FILE_TEST_IS_DIR : Z := Z.shiftl 1 2.
Definition G_FILE_TEST_IS_EXECUTABLE : Z := Z.shiftl 1 3.
Definition G_FILE_TEST_EXISTS : Z := Z.shiftl 1 4.

(* ------------------------------------------------------------------ *)
(** ** The interfaces pkg-mgr.cc calls into *)

(** service-db-util.h.  Each operation returns its [gint] result (0 on
    success) and the next database state; [svcdb_model_add] also writes the
    version it assigned through its out-parameter. *)
Class ServiceDb (DB : Type) : Type := {
  svcdb_model_delete : string -> Z -> DB -> Z * DB;
  svcdb_model_add :
    string -> string -> bool -> string -> string -> DB -> (Z * Z) * DB;
  svcdb_pipeline_set : string -> string -> DB -> Z * DB;
  svcdb_resource_delete : string -> DB -> Z * DB;
  svcdb_resource_add : string -> string -> string -> string -> DB -> Z * DB
}.

(** What [stat] reports for an existing path. *)
Record file_attr : Type := {
  st_regular : bool;
  st_dir : bool;
  st_symlink : bool;
  st_executable : bool
}.

(** The result of [json_parser_load_from_file] followed by
    [json_parser_get_root]: the error that was set, or the root node ([NULL]
    for an empty document). *)
Inductive json_load_result : Type :=
| JsonLoadError (message : string)
| JsonLoadRoot (root : option JsonNode).

(** GLib, json-glib and the Tizen package manager as seen from pkg-mgr.cc. *)
Class Platform : Type := {
  (** [g_build_filename (first, second, NULL)] *)
  g_build_filename : string -> string -> string;
  (** the file system: [None] when there is no such path *)
  fs_stat : string -> option file_attr;
  (** [g_dir_open] and the names [g_dir_read_name] then yields, in order;
      [None] when the directory cannot be opened *)
  g_dir_open : string -> option (list string);
  json_parser_load_from_file : string -> json_load_result;
  (** [json_generator_to_data] with pretty printing switched on *)
  json_generator_to_data : JsonNode -> string;
  package_info_h : Type;
  package_info_create : string -> Z * package_info_h;
  package_info_get_res_type : package_info_h -> Z * string;
  package_info_get_res_version : package_info_h -> Z * string;
  package_info_destroy : package_info_h -> Z
}.

(** [g_file_test (filename, test)] is TRUE when ANY of the tests in the bit
    field holds (GLib reference manual); a path that does not exist passes
    none. *)
Definition g_file_test `{Platform} (filename : string) (test : GFileTest) : bool :=
  match fs_stat filename with
  | None => false
  | Some a =>
      (Z.testbit test 4)
      || (Z.testbit test 0 && st_regular a)
      || (Z.testbit test 1 && st_symlink a)
      || (Z.testbit test 2 && st_dir a)
      || (Z.testbit test 3 && st_executable a)
  end.

(* ------------------------------------------------------------------ *)
(** ** Effects: the trace and the monad *)

Inductive log_level : Type := LOG_INFO | LOG_WARN | LOG_ERROR.

(** One constructor per [ml_logi], [ml_logw] and [ml_loge] call of
    pkg-mgr.cc, carrying the arguments of its format string. *)
Inductive log_msg : Type :=
| MsgUnknownDataType (json_type : Z)
| MsgJsonFileNotFound (json_file : string)
| MsgJsonParseFailed (json_file message : string)
| MsgRootArrayFailed (json_file : string)
| MsgNoNameOrModel (json_file : string)
| MsgModelRegistered (name : string) (version : Z)
| MsgModelRegisterFailed (name : string)
| MsgNoNameOrDescription (json_file : string)
| MsgPipelineRegistered (name : string)
| MsgPipelineRegisterFailed (name : string)
| MsgNoNameOrPath (json_file : string)
| MsgResourceRegistered (name : string)
| MsgResourceRegisterFailed (name : string)
| MsgPackagePath (pkg_path : string)
| MsgFile (file_name : string)
| MsgEvent (type package_name : string)
    (event_type : package_manager_event_type_e)
    (event_state : package_manager_event_state_e)
| MsgResCopyStarted
| MsgPackageInfoCreateFailed (ret : Z)
| MsgGetResTypeFailed (ret : Z)
| MsgGetResVersionFailed (ret : Z)
| MsgPackageInfoDestroyFailed (ret : Z)
| MsgInstalled (package_name res_type res_version : string)
| MsgUninstalling (package_name : string)
| MsgUpdated (package_name : string).

(** A call into the service database, with its arguments. *)
Inductive svcdb_call : Type :=
| CallModelDelete (name : string) (version : Z)
| CallModelAdd (name model : string) (active : bool) (desc app_info : string)
| CallPipelineSet (name desc : string)
| CallResourceDelete (name : string)
| CallResourceAdd (name path desc app_info : string).

Inductive event : Type :=
| EvLog (level : log_level) (msg : log_msg)
| EvFileTest (filename : string) (test : GFileTest)
| EvJsonLoad (json_file : string)
| EvDirOpen (path : string)
| EvSvcdb (call : svcdb_call).

(** A computation reads and updates the database and appends to the trace. *)
Definition M (DB A : Type) : Type := DB -> A * DB * list event.

Definition ret {DB A : Type} (a : A) : M DB A := fun db => (a, db, []).

Definition bind {DB A B : Type} (m : M DB A) (f : A -> M DB B) : M DB B :=
  fun db =>
    let '(a, db1, t1) := m db in
    let '(b, db2, t2) := f a db1 in
    (b, db2, t1 ++ t2).

Declare Scope pkgmgr_scope.
Delimit Scope pkgmgr_scope with pkgmgr.
Notation "x <- m ;; k" := (bind m (fun x => k))
  (at level 61, m at next level, right associativity) : pkgmgr_scope.
Notation "m ;; k" := (bind m (fun _ => k))
  (at level 61, right associativity) : pkgmgr_scope.
Open Scope pkgmgr_scope.

Definition emit {DB : Type} (e : event) : M DB unit := fun db => (tt, db, [e]).

Definition ml_logi {DB : Type} (m : log_msg) : M DB unit := emit (EvLog LOG_INFO m).
Definition ml_logw {DB : Type} (m : log_msg) : M DB unit := emit (EvLog LOG_WARN m).
Definition ml_loge {DB : Type} (m : log_msg) : M DB unit := emit (EvLog LOG_ERROR m).

(** A database operation: its call is recorded, then it runs. *)
Definition svcdb {DB A : Type} (c : svcdb_call) (op : DB -> A * DB) : M DB A :=
  fun db => let '(a, db') := op db in (a, db', [EvSvcdb c]).

(** The result, final database and trace of a computation. *)
Definition final_db {DB A : Type} (r : A * DB * list event) : DB := snd (fst r).
Definition trace_of {DB A : Type} (r : A * DB * list event) : list event := snd r.

(** [for (guint i = 0; i < n; ++i) body (i)], written as the [n] iterations
    that start at index [i]. *)
Fixpoint for_loop {DB : Type} (n i : nat) (body : nat -> M DB unit) : M DB unit :=
  match n with
  | O => ret tt
  | S n' => body i ;; for_loop n' (S i) body
  end.

(* ------------------------------------------------------------------ *)
(** ** pkg-mgr.cc *)

Section PkgMgr.

Context {DB : Type} {R : ServiceDb DB} {P : Platform}.

(** Reading the file system or a directory and loading a JSON file leave the
    database alone and are recorded in the trace. *)
Definition file_test (filename : string) (test : GFileTest) : M DB bool :=
  fun db => (g_file_test filename test, db, [EvFileTest filename test]).

Definition parser_load (json_file : string) : M DB json_load_result :=
  fun db => (json_parser_load_from_file json_file, db, [EvJsonLoad json_file]).

Definition dir_open (path : string) : M DB (option (list string)) :=
  fun db => (g_dir_open path, db, [EvDirOpen path]).

(** The node [_get_app_info] builds with its [JsonBuilder]: one object with
    four string members, added in this order. *)
Definition app_info_root (package_name res_type res_version : string) : JsonNode :=
  JsonObjectNode
    [ ("is_rpk", JsonValueNode (JsonString "T"));
      ("app_id", JsonValueNode (JsonString package_name));
      ("res_type", JsonValueNode (JsonString res_type));
      ("res_version", JsonValueNode (JsonString res_version)) ].

(** [_get_app_info]: the generator's text for that node. *)
Definition _get_app_info (package_name res_type res_version : string) : string :=
  json_generator_to_data (app_info_root package_name res_type res_version).

(** The expression [(v && g_ascii_strcasecmp (v, "true") == 0)]. *)
Definition flag_is_true (v : option string) : bool :=
  match v with
  | Some s => g_ascii_strcasecmp s "true" =? 0
  | None => false
  end.

(** The expression [(v ? v : empty)], with the empty string literal. *)
Definition or_empty (v : option string) : string :=
  match v with
  | Some s => s
  | None => EmptyString
  end.

(** The body of the loop of [_parse_json] at index [i]: [array] is [NULL]
    when the root did not hold an array. *)
Definition _parse_json_body (json_file : string) (json_type : mlsvc_json_type_e)
    (app_info : option string) (array : option JsonArray) (root : option JsonNode)
    (i : nat) : M DB unit :=
  let object :=
    match array with
    | Some a => json_array_get_object_element a i
    | None => json_node_get_object root
    end in
  match json_type with
  | MLSVC_JSON_MODEL =>
      let name := json_object_get_string_member object "name" in
      let model := json_object_get_string_member object "model" in
      let desc := json_object_get_string_member object "description" in
      let activate := json_object_get_string_member object "activate" in
      let clear := json_object_get_string_member object "clear" in
      match name, model with
      | Some name, Some model =>
          let active := flag_is_true activate in
          let clear_old := flag_is_true clear in
          (if clear_old
           then (svcdb (CallModelDelete name 0) (svcdb_model_delete name 0) ;; ret tt)
           else ret tt) ;;
          r <- svcdb (CallModelAdd name model active (or_empty desc) (or_empty app_info))
                 (svcdb_model_add name model active (or_empty desc) (or_empty app_info)) ;;
          (let '(ret_, version) := r in
           if ret_ =? 0
           then ml_logi (MsgModelRegistered name version)
           else ml_loge (MsgModelRegisterFailed name))
      | _, _ => ml_loge (MsgNoNameOrModel json_file)
      end
  | MLSVC_JSON_PIPELINE =>
      let name := json_object_get_string_member object "name" in
      let desc := json_object_get_string_member object "description" in
      match name, desc with
      | Some name, Some desc =>
          ret_ <- svcdb (CallPipelineSet name desc) (svcdb_pipeline_set name desc) ;;
          if ret_ =? 0
          then ml_logi (MsgPipelineRegistered name)
          else ml_loge (MsgPipelineRegisterFailed name)
      | _, _ => ml_loge (MsgNoNameOrDescription json_file)
      end
  | MLSVC_JSON_RESOURCE =>
      let name := json_object_get_string_member object "name" in
      let path := json_object_get_string_member object "path" in
      let desc := json_object_get_string_member object "description" in
      let clear := json_object_get_string_member object "clear" in
      match name, path with
      | Some name, Some path =>
          let clear_old := flag_is_true clear in
          (if clear_old
           then (svcdb (CallResourceDelete name) (svcdb_resource_delete name) ;; ret tt)
           else ret tt) ;;
          ret_ <- svcdb (CallResourceAdd name path (or_empty desc) (or_empty app_info))
                    (svcdb_resource_add name path (or_empty desc) (or_empty app_info)) ;;
          if ret_ =? 0
          then ml_logi (MsgResourceRegistered name)
          else ml_loge (MsgResourceRegisterFailed name)
      | _, _ => ml_loge (MsgNoNameOrPath json_file)
      end
  | MLSVC_JSON_MAX => ml_loge (MsgUnknownDataType (mlsvc_json_type_value json_type))
  end.

(** The first [switch] of [_parse_json]: the descriptor file of a kind, none
    for a value outside the three kinds. *)
Definition json_file_of (json_path : string) (json_type : mlsvc_json_type_e)
  : option string :=
  match json_type with
  | MLSVC_JSON_MODEL => Some (g_build_filename json_path "model_description.json")
  | MLSVC_JSON_PIPELINE => Some (g_build_filename json_path "pipeline_description.json")
  | MLSVC_JSON_RESOURCE => Some (g_build_filename json_path "resource_description.json")
  | MLSVC_JSON_MAX => None
  end.

(** [_parse_json]: parse json and update the ml-service database. *)
Definition _parse_json (json_path : string) (json_type : mlsvc_json_type_e)
    (app_info : option string) : M DB unit :=
  match json_file_of json_path json_type with
  | None => ml_loge (MsgUnknownDataType (mlsvc_json_type_value json_type))
  | Some json_file =>
      found <- file_test json_file (Z.lor G_FILE_TEST_EXISTS G_FILE_TEST_IS_REGULAR) ;;
      if negb found then ml_logw (MsgJsonFileNotFound json_file)
      else
        loaded <- parser_load json_file ;;
        match loaded with
        | JsonLoadError message => ml_loge (MsgJsonParseFailed json_file message)
        | JsonLoadRoot root =>
            if JSON_NODE_HOLDS_ARRAY root then
              match json_node_get_array root with
              | None => ml_loge (MsgRootArrayFailed json_file)
              | Some array =>
                  for_loop (json_array_get_length array) 0
                    (_parse_json_body json_file json_type app_info (Some array) root)
              end
            else
              for_loop 1 0 (_parse_json_body json_file json_type app_info None root)
        end
  end.

(** The [while ((file_name = g_dir_read_name (dir)))] loop. *)
Fixpoint log_file_names (names : list string) : M DB unit :=
  match names with
  | [] => ret tt
  | file_name :: rest => ml_logi (MsgFile file_name) ;; log_file_names rest
  end.

(** [_pkg_mgr_echo_pkg_path_info]: log the content of the package path. *)
Definition _pkg_mgr_echo_pkg_path_info (pkg_path : string) : M DB unit :=
  is_dir <- file_test pkg_path G_FILE_TEST_IS_DIR ;;
  if is_dir then
    ml_logi (MsgPackagePath pkg_path) ;;
    dir <- dir_open pkg_path ;;
    match dir with
    | Some names => log_file_names names
    | None => ret tt
    end
  else ret tt.

(** [package_info_destroy] and the log of its failure. *)
Definition destroy_pkg_info (pkg_info : package_info_h) : M DB unit :=
  let ret_ := package_info_destroy pkg_info in
  if negb (ret_ =? PACKAGE_MANAGER_ERROR_NONE)
  then ml_loge (MsgPackageInfoDestroyFailed ret_)
  else ret tt.

(** The cast [(mlsvc_json_type_e) t] of the loop counter in the handler. *)
Definition mlsvc_json_type_of_nat (t : nat) : mlsvc_json_type_e :=
  match t with
  | 0%nat => MLSVC_JSON_MODEL
  | 1%nat => MLSVC_JSON_PIPELINE
  | 2%nat => MLSVC_JSON_RESOURCE
  | _ => MLSVC_JSON_MAX
  end.

Definition is_res_copy (t : package_manager_event_type_e) : bool :=
  match t with
  | PACKAGE_MANAGER_EVENT_TYPE_RES_COPY => true
  | _ => false
  end.

(** [g_strdup_printf ("/opt/usr/globalapps/%s/res/global", package_name)]. *)
Definition pkg_path_of (package_name : string) : string :=
  ("/opt/usr/globalapps/" ++ package_name ++ "/res/global")%string.

(** [_pkg_mgr_event_cb]: the callback invoked for a package event. *)
Definition _pkg_mgr_event_cb (type package_name : string)
    (event_type : package_manager_event_type_e)
    (event_state : package_manager_event_state_e)
    (progress : Z) (error : Z) : M DB unit :=
  ml_logi (MsgEvent type package_name event_type event_state) ;;
  if is_res_copy event_type then ml_logi MsgResCopyStarted
  else if negb (g_ascii_strcasecmp type "rpk" =? 0) then ret tt
  else
    let pkg_path := pkg_path_of package_name in
    match event_type, event_state with
    | PACKAGE_MANAGER_EVENT_TYPE_INSTALL, PACKAGE_MANAGER_EVENT_STATE_COMPLETED =>
        let '(ret1, pkg_info) := package_info_create package_name in
        if negb (ret1 =? PACKAGE_MANAGER_ERROR_NONE)
        then ml_loge (MsgPackageInfoCreateFailed ret1)
        else
          let '(ret2, res_type) := package_info_get_res_type pkg_info in
          if negb (ret2 =? PACKAGE_MANAGER_ERROR_NONE)
          then ml_loge (MsgGetResTypeFailed ret2) ;; destroy_pkg_info pkg_info
          else
            let '(ret3, res_version) := package_info_get_res_version pkg_info in
            if negb (ret3 =? PACKAGE_MANAGER_ERROR_NONE)
            then ml_loge (MsgGetResVersionFailed ret3) ;; destroy_pkg_info pkg_info
            else
              ml_logi (MsgInstalled package_name res_type res_version) ;;
              destroy_pkg_info pkg_info ;;
              let app_info := _get_app_info package_name res_type res_version in
              let json_path := g_build_filename pkg_path res_type in
              for_loop (Z.to_nat (mlsvc_json_type_value MLSVC_JSON_MAX)) 0
                (fun t => _parse_json json_path (mlsvc_json_type_of_nat t) (Some app_info))
    | PACKAGE_MANAGER_EVENT_TYPE_UNINSTALL, PACKAGE_MANAGER_EVENT_STATE_STARTED =>
        ml_logi (MsgUninstalling package_name) ;;
        _pkg_mgr_echo_pkg_path_info pkg_path
    | PACKAGE_MANAGER_EVENT_TYPE_UPDATE, PACKAGE_MANAGER_EVENT_STATE_COMPLETED =>
        ml_logi (MsgUpdated package_name) ;;
        _pkg_mgr_echo_pkg_path_info pkg_path
    | _, _ => ret tt
    end.

End PkgMgr.

(* ------------------------------------------------------------------ *)
(** ** Observations on traces and records, used to state the properties *)

(** The database calls of a trace, in order. *)
Fixpoint svcdb_calls (t : list event) : list svcdb_call :=
  match t with
  | [] => []
  | EvSvcdb c :: r => c :: svcdb_calls r
  | _ :: r => svcdb_calls r
  end.

(** A registration attempt: an add or a set. *)
Definition is_registration (c : svcdb_call) : bool :=
  match c with
  | CallModelAdd _ _ _ _ _ | CallPipelineSet _ _ | CallResourceAdd _ _ _ _ => true
  | CallModelDelete _ _ | CallResourceDelete _ => false
  end.

Definition registrations (t : list event) : list svcdb_call :=
  filter is_registration (svcdb_calls t).

(** The log a skipped record leaves. *)
Definition is_skip_log (e : event) : bool :=
  match e with
  | EvLog LOG_ERROR (MsgNoNameOrModel _)
  | EvLog LOG_ERROR (MsgNoNameOrDescription _)
  | EvLog LOG_ERROR (MsgNoNameOrPath _) => true
  | _ => false
  end.

Definition skip_logs (t : list event) : list event := filter is_skip_log t.

(** Reading a file, a directory or the file system. *)
Definition is_file_access (e : event) : bool :=
  match e with
  | EvFileTest _ _ | EvJsonLoad _ | EvDirOpen _ => true
  | _ => false
  end.

Definition is_svcdb (e : event) : bool :=
  match e with
  | EvSvcdb _ => true
  | _ => false
  end.

(** A record's string field: nothing when the record is not an object, when
    it has no member of that name, or when the member is not a string. *)
Definition record_field (record : option JsonNode) (field : string) : option string :=
  json_object_get_string_member (json_node_get_object record) field.

(** The fields a record of each kind must carry. *)
Definition required_fields (kind : mlsvc_json_type_e) : list string :=
  match kind with
  | MLSVC_JSON_MODEL => ["name"; "model"]
  | MLSVC_JSON_PIPELINE => ["name"; "description"]
  | MLSVC_JSON_RESOURCE => ["name"; "path"]
  | MLSVC_JSON_MAX => []
  end.

Definition has_field (record : option JsonNode) (field : string) : bool :=
  match record_field record field with
  | Some _ => true
  | None => false
  end.

(** A record is well formed for a kind when it has every required field of
    the kind; [MLSVC_JSON_MAX] is the bound of the enumeration, not a kind. *)
Definition well_formed (kind : mlsvc_json_type_e) (record : option JsonNode) : bool :=
  match kind with
  | MLSVC_JSON_MAX => false
  | _ => forallb (has_field record) (required_fields kind)
  end.

Definition malformed (kind : mlsvc_json_type_e) (record : option JsonNode) : bool :=
  negb (well_formed kind record).

(** The registration a well-formed record of a kind stands for. *)
Definition registration_of (kind : mlsvc_json_type_e) (app_info : option string)
    (record : option JsonNode) : svcdb_call :=
  let field k := or_empty (record_field record k) in
  match kind with
  | MLSVC_JSON_PIPELINE => CallPipelineSet (field "name") (field "description")
  | MLSVC_JSON_RESOURCE =>
      CallResourceAdd (field "name") (field "path") (field "description")
        (or_empty app_info)
  | _ =>
      CallModelAdd (field "name") (field "model")
        (flag_is_true (record_field record "activate"))
        (field "description") (or_empty app_info)
  end.

(** The delete that precedes the registration of a record that asks for its
    predecessors to be cleared; pipelines have none. *)
Definition clearing_of (kind : mlsvc_json_type_e) (record : option JsonNode)
  : list svcdb_call :=
  let name := or_empty (record_field record "name") in
  if flag_is_true (record_field record "clear") then
    match kind with
    | MLSVC_JSON_MODEL => [CallModelDelete name 0]
    | MLSVC_JSON_RESOURCE => [CallResourceDelete name]
    | _ => []
    end
  else [].

(** All database calls one record gives rise to. *)
Definition record_calls (kind : mlsvc_json_type_e) (app_info : option string)
    (record : option JsonNode) : list svcdb_call :=
  if well_formed kind record
  then clearing_of kind record ++ [registration_of kind app_info record]
  else [].

(** The records of a descriptor: the elements of a root array, else the root
    itself as the only record. *)
Definition records_of_root (root : option JsonNode) : list (option JsonNode) :=
  match root with
  | Some (JsonArrayNode elements) => map Some elements
  | _ => [root]
  end.

(** The record the loop body of [_parse_json] looks at in iteration [i]. *)
Definition record_at (array : option JsonArray) (root : option JsonNode) (i : nat)
  : option JsonNode :=
  match array with
  | Some a => nth_error a i
  | None => root
  end.

(** The error a skipped record of a kind is logged with. *)
Definition skip_msg (kind : mlsvc_json_type_e) (json_file : string) : log_msg :=
  match kind with
  | MLSVC_JSON_MODEL => MsgNoNameOrModel json_file
  | MLSVC_JSON_PIPELINE => MsgNoNameOrDescription json_file
  | MLSVC_JSON_RESOURCE => MsgNoNameOrPath json_file
  | MLSVC_JSON_MAX => MsgUnknownDataType (mlsvc_json_type_value kind)
  end.

(** The root of a descriptor holds an array or an object. *)
Definition holds_array_or_object (root : option JsonNode) : bool :=
  match root with
  | Some (JsonArrayNode _) | Some (JsonObjectNode _) => true
  | _ => false
  end.

(** The test [_parse_json] makes on a descriptor file. *)
Definition descriptor_test : GFileTest :=
  Z.lor G_FILE_TEST_EXISTS G_FILE_TEST_IS_REGULAR.

(** What the handler does when it only observes a package directory: it
    logs, tests whether the package path is a directory and lists it. *)
Definition is_observation (pkg_path : string) (e : event) : bool :=
  match e with
  | EvLog _ _ => true
  | EvFileTest filename test =>
      String.eqb filename pkg_path && (test =? G_FILE_TEST_IS_DIR)
  | EvDirOpen path => String.eqb path pkg_path
  | EvJsonLoad _ | EvSvcdb _ => false
  end.

(** A record as the descriptor format has it: an object each of whose
    members holds a string. *)
Definition typed_record (o : JsonObject) : Prop :=
  forall (field : string) (node : JsonNode),
    object_get_member_internal o field = Some node ->
    exists s, node = JsonValueNode (JsonString s).

(** An event that is a log line. *)
Definition is_log (e : event) : bool :=
  match e with
  | EvLog _ _ => true
  | _ => false
  end.

(** The loop [_parse_json] runs once its descriptor is loaded: over the
    elements of a root array, else once over the root. *)
Definition root_loop {DB : Type} {R : ServiceDb DB} (json_file : string)
    (kind : mlsvc_json_type_e) (app_info : option string)
    (root : option JsonNode) : M DB unit :=
  match json_node_get_array root with
  | Some array =>
      for_loop (json_array_get_length array) 0
        (_parse_json_body json_file kind app_info (Some array) root)
  | None => for_loop 1 0 (_parse_json_body json_file kind app_info None root)
  end.

(** Run the database operations met in a goal. *)
Ltac run_db_ops :=
  repeat match goal with
  | |- context [svcdb_model_delete ?n ?v ?d] =>
      destruct (svcdb_model_delete n v d) as [? ?]
  | |- context [svcdb_model_add ?n ?m ?a ?de ?ai ?d] =>
      destruct (svcdb_model_add n m a de ai d) as [[? ?] ?]
  | |- context [svcdb_pipeline_set ?n ?de ?d] =>
      destruct (svcdb_pipeline_set n de d) as [? ?]
  | |- context [svcdb_resource_delete ?n ?d] =>
      destruct (svcdb_resource_delete n d) as [? ?]
  | |- context [svcdb_resource_add ?n ?p ?de ?ai ?d] =>
      destruct (svcdb_resource_add n p de ai d) as [? ?]
  | |- context [if ?z =? 0 then _ else _] => destruct (z =? 0)
  end; simpl.

(** The three kinds the handler walks through, in its order. *)
Definition all_kinds : list mlsvc_json_type_e :=
  [MLSVC_JSON_MODEL; MLSVC_JSON_PIPELINE; MLSVC_JSON_RESOURCE].

(* ------------------------------------------------------------------ *)
(** ** A JSON text generator and a reader for app-info blobs

    json-glib is outside the repository.  [JsonText] gives one text form of
    a node, laid out the way json-glib's generator lays out pretty-printed
    data (two-space indent, [ : ] between a member name and its value, one
    member per line, the escapes of its [json_strescape]), and a reader for
    the texts of objects whose members are strings, which is what an
    app-info blob is.  Each [dump_] function writes its text in front of the
    text [k] that follows it. *)

Module JsonText.

Definition dquote : ascii := "034"%char.
Definition backslash : ascii := "092"%char.
Definition newline : ascii := "010"%char.

Definition hex_digit (n : N) : ascii :=
  if (n <? 10)%N then ascii_of_N (48 + n) else ascii_of_N (87 + n).

(** One byte as [json_strescape] writes it: a backslash before a backslash
    or a quote, the short escapes and [\u00XX] for control bytes, every other
    byte as it is. *)
Definition escape_char (c : ascii) (k : string) : string :=
  let n := N_of_ascii c in
  if Ascii.eqb c backslash || Ascii.eqb c dquote then String backslash (String c k)
  else if ((0 <? n) && (n <? 31) || (n =? 127))%N then
    match n with
    | 8%N => String backslash (String "b" k)
    | 12%N => String backslash (String "f" k)
    | 10%N => String backslash (String "n" k)
    | 13%N => String backslash (String "r" k)
    | 9%N => String backslash (String "t" k)
    | _ =>
        String backslash (String "u" (String "0" (String "0"
          (String (hex_digit (n / 16)) (String (hex_digit (n mod 16)) k)))))
    end
  else String c k.

Fixpoint json_strescape (s : string) (k : string) : string :=
  match s with
  | EmptyString => k
  | String c r => escape_char c (json_strescape r k)
  end.

Definition dump_string (s : string) (k : string) : string :=
  String dquote (json_strescape s (String dquote k)).

Fixpoint spaces (n : nat) (k : string) : string :=
  match n with
  | O => k
  | S n' => String " " (spaces n' k)
  end.

Definition dump_value (v : JsonValue) (k : string) : string :=
  match v with
  | JsonInt i => (NilZero.string_of_int (Z.to_int i) ++ k)%string
  | JsonDouble literal => (literal ++ k)%string
  | JsonBoolean true => ("true" ++ k)%string
  | JsonBoolean false => ("false" ++ k)%string
  | JsonString s => dump_string s k
  end.

(** The members of a non-empty object at nesting [level], the closing brace
    included. *)
Fixpoint dump_members (dump : nat -> JsonNode -> string -> string) (level : nat)
    (members : list (string * JsonNode)) (k : string) : string :=
  match members with
  | [] => String newline (spaces (2 * level) (String "}" k))
  | (name, value) :: rest =>
      spaces (2 * S level)
        (dump_string name (String " " (String ":" (String " "
          (dump (S level) value
            match rest with
            | [] => dump_members dump level rest k
            | _ :: _ => String "," (String newline (dump_members dump level rest k))
            end)))))
  end.

Fixpoint dump_elements (dump : nat -> JsonNode -> string -> string) (level : nat)
    (elements : list JsonNode) (k : string) : string :=
  match elements with
  | [] => String newline (spaces (2 * level) (String "]" k))
  | element :: rest =>
      spaces (2 * S level)
        (dump (S level) element
          match rest with
          | [] => dump_elements dump level rest k
          | _ :: _ => String "," (String newline (dump_elements dump level rest k))
          end)
  end.

Fixpoint dump_node (level : nat) (node : JsonNode) (k : string) {struct node} : string :=
  match node with
  | JsonNullNode => ("null" ++ k)%string
  | JsonValueNode v => dump_value v k
  | JsonArrayNode [] => String "[" (String "]" k)
  | JsonArrayNode elements =>
      String "[" (String newline (dump_elements dump_node level elements k))
  | JsonObjectNode [] => String "{" (String "}" k)
  | JsonObjectNode members =>
      String "{" (String newline (dump_members dump_node level members k))
  end.

(** The text of a node. *)
Definition to_data (node : JsonNode) : string := dump_node 0 node EmptyString.

(** *** The reader *)

Definition is_space (c : ascii) : bool :=
  Ascii.eqb c " " || Ascii.eqb c newline || Ascii.eqb c "009" || Ascii.eqb c "013".

Fixpoint skip_ws (s : string) : string :=
  match s with
  | String c r => if is_space c then skip_ws r else s
  | EmptyString => s
  end.

Definition expect (c : ascii) (s : string) : option string :=
  match s with
  | String c' r => if Ascii.eqb c c' then Some r else None
  | EmptyString => None
  end.

Definition unhex (c : ascii) : option N :=
  let n := N_of_ascii c in
  if ((48 <=? n) && (n <=? 57))%N then Some (n - 48)%N
  else if ((97 <=? n) && (n <=? 102))%N then Some (n - 87)%N
  else if ((65 <=? n) && (n <=? 70))%N then Some (n - 55)%N
  else None.

(** The byte a [\uXXXX] escape stands for; code points from 128 on, which
    take more than one byte, are not read. *)
Definition unescape_unicode (h1 h2 h3 h4 : ascii) : option ascii :=
  match unhex h1, unhex h2, unhex h3, unhex h4 with
  | Some a, Some b, Some c, Some d =>
      let code := (((a * 16 + b) * 16 + c) * 16 + d)%N in
      if (code <? 128)%N then Some (ascii_of_N code) else None
  | _, _, _, _ => None
  end.

Definition unescape_short (e : ascii) : option ascii :=
  if Ascii.eqb e dquote then Some dquote
  else if Ascii.eqb e backslash then Some backslash
  else if Ascii.eqb e "/" then Some "/"%char
  else if Ascii.eqb e "b" then Some "008"%char
  else if Ascii.eqb e "f" then Some "012"%char
  else if Ascii.eqb e "n" then Some "010"%char
  else if Ascii.eqb e "r" then Some "013"%char
  else if Ascii.eqb e "t" then Some "009"%char
  else None.

Definition prepend (c : option ascii) (r : option (string * string))
  : option (string * string) :=
  match c, r with
  | Some c, Some (s, rest) => Some (String c s, rest)
  | _, _ => None
  end.

(** The string that ends at the next unescaped quote, and what follows it. *)
Fixpoint read_string_body (s : string) : option (string * string) :=
  match s with
  | EmptyString => None
  | String c r =>
      if Ascii.eqb c dquote then Some (EmptyString, r)
      else if Ascii.eqb c backslash then
        match r with
        | String e r' =>
            if Ascii.eqb e "u" then
              match r' with
              | String h1 (String h2 (String h3 (String h4 r''))) =>
                  prepend (unescape_unicode h1 h2 h3 h4) (read_string_body r'')
              | _ => None
              end
            else prepend (unescape_short e) (read_string_body r')
        | EmptyString => None
        end
      else prepend (Some c) (read_string_body r)
  end.

Definition read_string (s : string) : option (string * string) :=
  match expect dquote (skip_ws s) with
  | Some r => read_string_body r
  | None => None
  end.

(** The members up to the closing brace; [fuel] bounds their number. *)
Fixpoint read_members (fuel : nat) (s : string)
  : option (list (string * JsonNode) * string) :=
  match fuel with
  | O => None
  | S fuel' =>
      match read_string s with
      | None => None
      | Some (name, s1) =>
          match expect ":" (skip_ws s1) with
          | None => None
          | Some s2 =>
              match read_string s2 with
              | None => None
              | Some (value, s3) =>
                  let member := (name, JsonValueNode (JsonString value)) in
                  match skip_ws s3 with
                  | String c s4 =>
                      if Ascii.eqb c "," then
                        match read_members fuel' s4 with
                        | Some (members, s5) => Some (member :: members, s5)
                        | None => None
                        end
                      else if Ascii.eqb c "}" then Some ([member], s4)
                      else None
                  | EmptyString => None
                  end
              end
          end
      end
  end.

(** Read the text of one object whose members are all strings. *)
Definition from_data (s : string) : option JsonNode :=
  match expect "{" (skip_ws s) with
  | None => None
  | Some s1 =>
      match skip_ws s1 with
      | String c s2 =>
          if Ascii.eqb c "}" then
            match skip_ws s2 with
            | EmptyString => Some (JsonObjectNode [])
            | String _ _ => None
            end
          else
            match read_members (String.length s) s1 with
            | Some (members, s3) =>
                match skip_ws s3 with
                | EmptyString => Some (JsonObjectNode members)
                | String _ _ => None
                end
            | None => None
            end
      | EmptyString => None
      end
  end.

End JsonText.

(** An object all of whose members hold strings. *)
Definition string_members (o : JsonObject) : Prop :=
  Forall (fun m => exists s, snd m = JsonValueNode (JsonString s)) o.

(* ------------------------------------------------------------------ *)
(** ** A registry and a device to run the handler on *)

Module Registry.

Record model_entry : Type := {
  model_name : string;
  model_version : Z;
  model_path : string;
  model_active : bool;
  model_description : string;
  model_app_info : string
}.

Record resource_entry : Type := {
  resource_name : string;
  resource_path : string;
  resource_description : string;
  resource_app_info : string
}.

(** Modelled from the spec: the persistent registry behind
    service-db-util.h, which is not among the sources.  Sections 3 and 6 of
    the specification: a model add assigns the next version of its name,
    versions are never reused, the active version is the selected one,
    deleting version 0 deletes all versions of a name, a pipeline is set by
    upsert, resources are keyed by name, and a delete that finds nothing
    fails. *)
Record t : Type := {
  models : list model_entry;
  issued : list (string * Z);
  pipelines : list (string * string);
  resources : list resource_entry
}.

Definition empty : t :=
  {| models := []; issued := []; pipelines := []; resources := [] |}.

Definition failure : Z := -1.

Fixpoint last_issued (l : list (string * Z)) (name : string) : Z :=
  match l with
  | [] => 0
  | (n, v) :: rest => if String.eqb n name then v else last_issued rest name
  end.

Definition deactivate (name : string) (e : model_entry) : model_entry :=
  if String.eqb (model_name e) name
  then {| model_name := model_name e; model_version := model_version e;
          model_path := model_path e; model_active := false;
          model_description := model_description e;
          model_app_info := model_app_info e |}
  else e.

(** Modelled from the spec: [svcdb_model_add], the addModel of section 6;
    the version is the next one of the name and an active add takes the
    selection from the other versions. *)
Definition addModel (name path : string) (active : bool)
    (description app_info : string) (r : t) : (Z * Z) * t :=
  let version := last_issued (issued r) name + 1 in
  let entry :=
    {| model_name := name; model_version := version; model_path := path;
       model_active := active; model_description := description;
       model_app_info := app_info |} in
  ((0, version),
   {| models := (if active then map (deactivate name) (models r) else models r)
                ++ [entry];
      issued := (name, version) :: issued r;
      pipelines := pipelines r;
      resources := resources r |}).

(** Modelled from the spec: [svcdb_model_delete], the deleteModel of
    section 6; version 0 stands for all versions of the name. *)
Definition deleteModel (name : string) (version : Z) (r : t) : Z * t :=
  let doomed e :=
    String.eqb (model_name e) name
    && ((version =? 0) || (model_version e =? version)) in
  if existsb doomed (models r)
  then (0, {| models := filter (fun e => negb (doomed e)) (models r);
              issued := issued r;
              pipelines := pipelines r;
              resources := resources r |})
  else (failure, r).

(** Modelled from the spec: [svcdb_pipeline_set], the setPipeline of
    section 6, an upsert. *)
Definition setPipeline (name description : string) (r : t) : Z * t :=
  (0, {| models := models r;
         issued := issued r;
         pipelines :=
           (name, description)
           :: filter (fun p => negb (String.eqb (fst p) name)) (pipelines r);
         resources := resources r |}).

(** Modelled from the spec: [svcdb_resource_delete], the deleteResource of
    section 6. *)
Definition deleteResource (name : string) (r : t) : Z * t :=
  let doomed e := String.eqb (resource_name e) name in
  if existsb doomed (resources r)
  then (0, {| models := models r;
              issued := issued r;
              pipelines := pipelines r;
              resources := filter (fun e => negb (doomed e)) (resources r) |})
  else (failure, r).

(** Modelled from the spec: [svcdb_resource_add], the addResource of
    section 6; the registry keeps one resource per name. *)
Definition addResource (name path description app_info : string) (r : t) : Z * t :=
  let entry :=
    {| resource_name := name; resource_path := path;
       resource_description := description; resource_app_info := app_info |} in
  (0, {| models := models r;
         issued := issued r;
         pipelines := pipelines r;
         resources :=
           filter (fun e => negb (String.eqb (resource_name e) name)) (resources r)
           ++ [entry] |}).

Definition service_db : ServiceDb t :=
  {| svcdb_model_delete := deleteModel;
     svcdb_model_add := addModel;
     svcdb_pipeline_set := setPipeline;
     svcdb_resource_delete := deleteResource;
     svcdb_resource_add := addResource |}.

End Registry.

(** A device with a few resource packages installed under
    /opt/usr/globalapps, used to run the handler on concrete events. *)
Module Device.

Definition regular_file : file_attr :=
  {| st_regular := true; st_dir := false; st_symlink := false;
     st_executable := false |}.

Definition directory : file_attr :=
  {| st_regular := false; st_dir := true; st_symlink := false;
     st_executable := true |}.

Definition str (s : string) : JsonNode := JsonValueNode (JsonString s).

(** [{"name":"m1","model":"m1.tflite","activate":"true"}] *)
Definition m1 : JsonObject :=
  [("name", str "m1"); ("model", str "m1.tflite"); ("activate", str "true")].

(** Three resource records; the second has no path. *)
Definition resource_records : list JsonNode :=
  [ JsonObjectNode [("name", str "r1"); ("path", str "r1.dat"); ("clear", str "TRUE")];
    JsonObjectNode [("name", str "r2")];
    JsonObjectNode [("name", str "r3"); ("path", str "r3.dat");
                    ("description", str "third")] ].

Definition p1 : JsonObject :=
  [("name", str "p1"); ("description", str "videotestsrc ! fakesink")].

Definition root_of (package_name : string) : string :=
  ("/opt/usr/globalapps/" ++ package_name ++ "/res/global/rpk")%string.

(** The files below the package roots: what [stat] says and what loading
    them as JSON gives. *)
Definition files : list (string * (file_attr * json_load_result)) :=
  [ ((root_of "app1" ++ "/model_description.json")%string,
     (regular_file, JsonLoadRoot (Some (JsonObjectNode m1))));
    ((root_of "app1" ++ "/resource_description.json")%string,
     (regular_file, JsonLoadRoot (Some (JsonArrayNode resource_records))));
    ((root_of "app2" ++ "/model_description.json")%string,
     (regular_file, JsonLoadRoot (Some (JsonArrayNode [JsonObjectNode m1]))));
    ((root_of "app3" ++ "/model_description.json")%string,
     (directory, JsonLoadError "Is a directory"));
    ((root_of "app3" ++ "/pipeline_description.json")%string,
     (regular_file, JsonLoadRoot (Some (JsonArrayNode [JsonObjectNode p1]))));
    ((root_of "app4" ++ "/model_description.json")%string,
     (regular_file, JsonLoadRoot (Some (str "m1.tflite"))));
    ("/opt/usr/globalapps/app1/res/global",
     (directory, JsonLoadError "Is a directory")) ].

Fixpoint find_path {A : Type} (l : list (string * A)) (path : string) : option A :=
  match l with
  | [] => None
  | (p, a) :: rest => if String.eqb p path then Some a else find_path rest path
  end.

Definition platform : Platform :=
  {| g_build_filename := fun first second => (first ++ "/" ++ second)%string;
     fs_stat := fun path => option_map fst (find_path files path);
     g_dir_open := fun path =>
       if String.eqb path "/opt/usr/globalapps/app1/res/global"
       then Some ["rpk"] else None;
     json_parser_load_from_file := fun path =>
       match find_path files path with
       | Some (_, loaded) => loaded
       | None => JsonLoadError "No such file or directory"
       end;
     json_generator_to_data := JsonText.to_data;
     package_info_h := string;
     package_info_create := fun package_name =>
       if String.eqb package_name "gone" then (-2, EmptyString) else (0, package_name);
     package_info_get_res_type := fun pkg_info =>
       if String.eqb pkg_info "ghost" then (-3, EmptyString) else (0, "rpk");
     package_info_get_res_version := fun pkg_info => (0, "2");
     package_info_destroy := fun pkg_info => 0 |}.

(** The handler and the parser on this device, over the registry. *)
Definition handle (type package_name : string)
    (event_type : package_manager_event_type_e)
    (event_state : package_manager_event_state_e) (db : Registry.t)
  : unit * Registry.t * list event :=
  @_pkg_mgr_event_cb _ Registry.service_db platform
    type package_name event_type event_state 100 0 db.

Definition parse (json_path : string) (json_type : mlsvc_json_type_e)
    (app_info : option string) (db : Registry.t)
  : unit * Registry.t * list event :=
  @_parse_json _ Registry.service_db platform json_path json_type app_info db.

End Device.

(* ------------------------------------------------------------------ *)
(** ** What a descriptor and an event amount to *)

(** The accesses to files and directories of a trace, in order. *)
Definition file_accesses (t : list event) : list event := filter is_file_access t.

Section Summaries.

Context {DB : Type} {R : ServiceDb DB} {P : Platform}.

(** The database operation a recorded call stands for. *)
Definition svcdb_apply (c : svcdb_call) (db : DB) : DB :=
  match c with
  | CallModelDelete name version => snd (svcdb_model_delete name version db)
  | CallModelAdd name model active desc app_info =>
      snd (svcdb_model_add name model active desc app_info db)
  | CallPipelineSet name desc => snd (svcdb_pipeline_set name desc db)
  | CallResourceDelete name => snd (svcdb_resource_delete name db)
  | CallResourceAdd name path desc app_info =>
      snd (svcdb_resource_add name path desc app_info db)
  end.

(** The database after a list of calls, made one after the other. *)
Definition replay (calls : list svcdb_call) (db : DB) : DB :=
  fold_left (fun d c => svcdb_apply c d) calls db.

(** The database calls the descriptor of a kind under a directory gives rise
    to: none when there is no such kind, when the file is not found or when
    it does not load, else the calls of its records. *)
Definition descriptor_calls (json_path : string) (kind : mlsvc_json_type_e)
    (app_info : option string) : list svcdb_call :=
  match json_file_of json_path kind with
  | None => []
  | Some json_file =>
      if g_file_test json_file descriptor_test then
        match json_parser_load_from_file json_file with
        | JsonLoadError _ => []
        | JsonLoadRoot root => flat_map (record_calls kind app_info) (records_of_root root)
        end
      else []
  end.

(** The file accesses the descriptor of a kind gives rise to: the test of
    the file and, when it passes, the load. *)
Definition descriptor_accesses (json_path : string) (kind : mlsvc_json_type_e)
  : list event :=
  match json_file_of json_path kind with
  | None => []
  | Some json_file =>
      EvFileTest json_file descriptor_test
      :: (if g_file_test json_file descriptor_test
          then [EvJsonLoad json_file] else [])
  end.

(** The package metadata of an install event: the resource type and version
    when the package information can be created and both queries succeed. *)
Definition lookup_resource_info (package_name : string) : option (string * string) :=
  let created := package_info_create package_name in
  if fst created =? PACKAGE_MANAGER_ERROR_NONE then
    let typed := package_info_get_res_type (snd created) in
    if fst typed =? PACKAGE_MANAGER_ERROR_NONE then
      let versioned := package_info_get_res_version (snd created) in
      if fst versioned =? PACKAGE_MANAGER_ERROR_NONE
      then Some (snd typed, snd versioned)
      else None
    else None
  else None.

(** An install that has completed. *)
Definition is_install_completed (event_type : package_manager_event_type_e)
    (event_state : package_manager_event_state_e) : bool :=
  match event_type, event_state with
  | PACKAGE_MANAGER_EVENT_TYPE_INSTALL, PACKAGE_MANAGER_EVENT_STATE_COMPLETED => true
  | _, _ => false
  end.

(** The directory the descriptors of a package are looked for in. *)
Definition descriptor_dir (package_name res_type : string) : string :=
  g_build_filename (pkg_path_of package_name) res_type.

(** The database calls of an event: those of the three descriptors, in the
    order of the kinds, for a completed install of a resource package whose
    metadata can be looked up; none for any other event. *)
Definition event_calls (type package_name : string)
    (event_type : package_manager_event_type_e)
    (event_state : package_manager_event_state_e) : list svcdb_call :=
  if is_install_completed event_type event_state
     && (g_ascii_strcasecmp type "rpk" =? 0)
  then
    match lookup_resource_info package_name with
    | Some (res_type, res_version) =>
        flat_map
          (fun kind =>
             descriptor_calls (descriptor_dir package_name res_type) kind
               (Some (_get_app_info package_name res_type res_version)))
          all_kinds
    | None => []
    end
  else [].

(** An uninstall that has started or an update that has completed. *)
Definition is_listing (event_type : package_manager_event_type_e)
    (event_state : package_manager_event_state_e) : bool :=
  match event_type, event_state with
  | PACKAGE_MANAGER_EVENT_TYPE_UNINSTALL, PACKAGE_MANAGER_EVENT_STATE_STARTED
  | PACKAGE_MANAGER_EVENT_TYPE_UPDATE, PACKAGE_MANAGER_EVENT_STATE_COMPLETED => true
  | _, _ => false
  end.

(** The file accesses of listing a package path: the directory test and,
    when it passes, the opening of the directory. *)
Definition listing_accesses (pkg_path : string) : list event :=
  EvFileTest pkg_path G_FILE_TEST_IS_DIR
  :: (if g_file_test pkg_path G_FILE_TEST_IS_DIR then [EvDirOpen pkg_path] else []).

(** The file accesses of an event: the descriptors of the three kinds for a
    completed install, the package path for a listing, none otherwise; none
    at all for a resource copy or for a package that is no resource
    package. *)
Definition event_accesses (type package_name : string)
    (event_type : package_manager_event_type_e)
    (event_state : package_manager_event_state_e) : list event :=
  if is_res_copy event_type || negb (g_ascii_strcasecmp type "rpk" =? 0) then []
  else if is_install_completed event_type event_state then
    match lookup_resource_info package_name with
    | Some (res_type, _) =>
        flat_map (descriptor_accesses (descriptor_dir package_name res_type)) all_kinds
    | None => []
    end
  else if is_listing event_type event_state
  then listing_accesses (pkg_path_of package_name)
  else [].

(** What is kept of a run: its database calls, the database it leaves and
    its file accesses. *)
Definition summary (r : unit * DB * list event)
  : list svcdb_call * DB * list event :=
  (svcdb_calls (trace_of r), final_db r, file_accesses (trace_of r)).

End Summaries.

(** The kind of artifact a database call is about. *)
Definition call_kind (c : svcdb_call) : mlsvc_json_type_e :=
  match c with
  | CallModelDelete _ _ | CallModelAdd _ _ _ _ _ => MLSVC_JSON_MODEL
  | CallPipelineSet _ _ => MLSVC_JSON_PIPELINE
  | CallResourceDelete _ | CallResourceAdd _ _ _ _ => MLSVC_JSON_RESOURCE
  end.

(** The app-info a call hands to the database, for the calls that hand one. *)
Definition call_app_info (c : svcdb_call) : option string :=
  match c with
  | CallModelAdd _ _ _ _ app_info | CallResourceAdd _ _ _ app_info => Some app_info
  | _ => None
  end.

(** Every delete of a list of calls is a delete of all versions and is
    followed at once by the add of the same name. *)
Fixpoint deletes_precede_adds (calls : list svcdb_call) : bool :=
  match calls with
  | [] => true
  | CallModelDelete name version :: rest =>
      match rest with
      | CallModelAdd name' _ _ _ _ :: _ =>
          (version =? 0) && String.eqb name name' && deletes_precede_adds rest
      | _ => false
      end
  | CallResourceDelete name :: rest =>
      match rest with
      | CallResourceAdd name' _ _ _ :: _ =>
          String.eqb name name' && deletes_precede_adds rest
      | _ => false
      end
  | _ :: rest => deletes_precede_adds rest
  end.

(** Run the database operations met in a goal one at a time, simplifying
    after each. *)
Ltac step_db_ops :=
  repeat (match goal with
  | |- context [svcdb_model_delete ?n ?v ?d] =>
      destruct (svcdb_model_delete n v d) as [? ?]
  | |- context [svcdb_model_add ?n ?m ?a ?de ?ai ?d] =>
      destruct (svcdb_model_add n m a de ai d) as [[? ?] ?]
  | |- context [svcdb_pipeline_set ?n ?de ?d] =>
      destruct (svcdb_pipeline_set n de d) as [? ?]
  | |- context [svcdb_resource_delete ?n ?d] =>
      destruct (svcdb_resource_delete n d) as [? ?]
  | |- context [svcdb_resource_add ?n ?p ?de ?ai ?d] =>
      destruct (svcdb_resource_add n p de ai d) as [? ?]
  | |- context [if ?z =? 0 then _ else _] => destruct (z =? 0)
  end; simpl).


(** A second device, whose package edge1 ships descriptors at the edges of
    the format: a model descriptor that is an empty array and a resource
    descriptor whose elements are no objects. *)
Module Corner.

Definition scalars : list JsonNode :=
  [ Device.str "r1"; JsonNullNode; JsonValueNode (JsonInt 7);
    JsonArrayNode [JsonObjectNode [("name", Device.str "r2"); ("path", Device.str "r2.dat")]] ].

Definition files : list (string * (file_attr * json_load_result)) :=
  [ ((Device.root_of "edge1" ++ "/model_description.json")%string,
     (Device.regular_file, JsonLoadRoot (Some (JsonArrayNode []))));
    ((Device.root_of "edge1" ++ "/pipeline_description.json")%string,
     (Device.regular_file, JsonLoadError "unexpected character"));
    ((Device.root_of "edge1" ++ "/resource_description.json")%string,
     (Device.regular_file, JsonLoadRoot (Some (JsonArrayNode scalars)))) ].

Definition platform : Platform :=
  {| g_build_filename := fun first second => (first ++ "/" ++ second)%string;
     fs_stat := fun path => option_map fst (Device.find_path files path);
     g_dir_open := fun path => None;
     json_parser_load_from_file := fun path =>
       match Device.find_path files path with
       | Some (_, loaded) => loaded
       | None => JsonLoadError "No such file or directory"
       end;
     json_generator_to_data := JsonText.to_data;
     package_info_h := string;
     package_info_create := fun package_name => (0, package_name);
     package_info_get_res_type := fun pkg_info => (0, "rpk");
     package_info_get_res_version := fun pkg_info => (0, "1");
     package_info_destroy := fun pkg_info => -1 |}.

Definition parse (json_path : string) (json_type : mlsvc_json_type_e)
    (app_info : option string) (db : Registry.t)
  : unit * Registry.t * list event :=
  @_parse_json _ Registry.service_db platform json_path json_type app_info db.

End Corner.

(* ------------------------------------------------------------------ *)
(** ** The package manager subscription and main.c

    [pkg_mgr_init] and [pkg_mgr_deinit] of pkg-mgr.cc and [postinit],
    [parse_args] and [main] of main.c.  They read and write the static
    variables of the two files and call into the Tizen package manager,
    GLib, the D-Bus helpers, the module list and the service database; the
    calls are recorded in a trace and the results the callers look at are
    given by the [Host]; allocation and release of memory ([g_strdup],
    [g_free], [g_clear_error]) are not recorded.  [g_option_context_parse] is
    taken to return (with help enabled it leaves the process on a help
    option).  [handle_sigterm], which runs as a signal handler while the main
    loop runs, is outside this model. *)

(** [errno.h]. *)
Definition ENOMEM : Z := 12.
Definition EINVAL : Z := 22.

(** [signal.h]. *)
Definition SIGTERM : Z := 15.

(** What [g_option_context_parse] reports and what it leaves in the three
    variables the option entries point to. *)
Record option_parse_result : Type := {
  parse_ok : bool;
  parse_message : string;
  parsed_verbose : bool;
  parsed_session : bool;
  parsed_path : option string
}.

(** The Tizen package manager, GLib and the rest of the daemon as seen from
    [pkg_mgr_init], [pkg_mgr_deinit] and main.c. *)
Class Host : Type := {
  package_manager_h : Type;
  (** [package_manager_create (&pkg_mgr)]: the result and what the variable
      holds afterwards, given what it held *)
  package_manager_create : option package_manager_h -> Z * option package_manager_h;
  package_manager_set_event_status : option package_manager_h -> Z -> Z;
  (** [package_manager_set_event_cb] with [_pkg_mgr_event_cb] and no user data *)
  package_manager_set_event_cb : option package_manager_h -> Z;
  package_manager_destroy : option package_manager_h -> Z;
  PACKAGE_MANAGER_STATUS_TYPE_INSTALL : Z;
  PACKAGE_MANAGER_STATUS_TYPE_UNINSTALL : Z;
  PACKAGE_MANAGER_STATUS_TYPE_UPGRADE : Z;
  PACKAGE_MANAGER_STATUS_TYPE_RES_COPY : Z;
  PACKAGE_MANAGER_STATUS_TYPE_RES_CREATE_DIR : Z;
  PACKAGE_MANAGER_STATUS_TYPE_RES_REMOVE : Z;
  PACKAGE_MANAGER_STATUS_TYPE_RES_UNINSTALL : Z;
  (** whether [g_option_context_new] gives a context *)
  g_option_context_new : bool;
  (** [g_option_context_parse] on the arguments, given what the variables
      [verbose], [is_session] and [db_path] hold *)
  g_option_context_parse :
    list string -> bool -> bool -> option string -> option_parse_result;
  GMainLoop : Type;
  g_main_loop_new : GMainLoop;
  gdbus_get_name : string -> Z;
  DBUS_ML_BUS_NAME : string;
  DB_PATH : string
}.

Inductive daemon_msg : Type :=
| MsgPackageManagerCreateFailed (ret : Z)
| MsgSetEventStatusFailed (ret : Z)
| MsgSetEventCbFailed (ret : Z)
| MsgPackageManagerDestroyFailed (ret : Z)
| MsgOptionContextNewFailed
| MsgOptionParsingFailed (message : string)
| MsgCannotInitSystem
| MsgCannotInitPackageManager
| MsgCannotFinalizePackageManager.

Section Daemon.

Context {HOST : Host}.

(** The calls of the daemon into its surroundings, with their arguments. *)
Inductive daemon_event : Type :=
| DLog (level : log_level) (msg : daemon_msg)
| DPackageManagerCreate
| DPackageManagerSetEventStatus (pkg_mgr : option package_manager_h) (status : Z)
| DPackageManagerSetEventCb (pkg_mgr : option package_manager_h)
| DPackageManagerDestroy (pkg_mgr : option package_manager_h)
| DOptionContextNew
| DOptionContextAddMainEntries
| DOptionContextSetHelpEnabled (help_enabled : bool)
| DOptionContextSetIgnoreUnknownOptions (ignore_unknown : bool)
| DOptionContextParse (argv : list string)
| DOptionContextFree
| DSignal (signo : Z)
| DGdbusGetName (name : string)
| DSvcdbInitialize (path : string)
| DMainLoopNew
| DGdbusGetSystemConnection (is_session : bool)
| DInitModules
| DMainLoopRun
| DExitModules
| DGdbusPutSystemConnection
| DMainLoopUnref
| DSvcdbFinalize.

(** The static variables of main.c and of pkg-mgr.cc. *)
Record globals : Type := {
  g_mainloop : option GMainLoop;
  verbose : bool;
  is_session : bool;
  db_path : option string;
  pkg_mgr : option package_manager_h
}.

(** The variables when the process starts. *)
Definition initial_globals : globals :=
  {| g_mainloop := None; verbose := false; is_session := false;
     db_path := None; pkg_mgr := None |}.

Definition set_pkg_mgr (v : option package_manager_h) (g : globals) : globals :=
  {| g_mainloop := g_mainloop g; verbose := verbose g; is_session := is_session g;
     db_path := db_path g; pkg_mgr := v |}.

Definition set_g_mainloop (v : option GMainLoop) (g : globals) : globals :=
  {| g_mainloop := v; verbose := verbose g; is_session := is_session g;
     db_path := db_path g; pkg_mgr := pkg_mgr g |}.

Definition set_db_path (v : option string) (g : globals) : globals :=
  {| g_mainloop := g_mainloop g; verbose := verbose g; is_session := is_session g;
     db_path := v; pkg_mgr := pkg_mgr g |}.

Definition set_options (v s : bool) (path : option string) (g : globals) : globals :=
  {| g_mainloop := g_mainloop g; verbose := v; is_session := s;
     db_path := path; pkg_mgr := pkg_mgr g |}.

(** A step of the daemon: its result, the variables it leaves and the calls
    it made. *)
Definition D (A : Type) : Type := globals -> A * globals * list daemon_event.

Definition dret {A : Type} (a : A) : D A := fun g => (a, g, []).

Definition dbind {A B : Type} (m : D A) (f : A -> D B) : D B :=
  fun g =>
    let '(a, g1, t1) := m g in
    let '(b, g2, t2) := f a g1 in
    (b, g2, t1 ++ t2).

Definition call (e : daemon_event) : D unit := fun g => (tt, g, [e]).

Definition read {A : Type} (field : globals -> A) : D A := fun g => (field g, g, []).

Definition write (update : globals -> globals) : D unit :=
  fun g => (tt, update g, []).

End Daemon.

Declare Scope daemon_scope.
Delimit Scope daemon_scope with daemon.
Notation "x <- m ;; k" := (dbind m (fun x => k))
  (at level 61, m at next level, right associativity) : daemon_scope.
Notation "m ;; k" := (dbind m (fun _ => k))
  (at level 61, right associativity) : daemon_scope.

Section DaemonCode.

Context {HOST : Host}.

Local Open Scope daemon_scope.

(** The status types [pkg_mgr_init] asks to be told about. *)
Definition monitored_status : Z :=
  Z.lor PACKAGE_MANAGER_STATUS_TYPE_INSTALL
    (Z.lor PACKAGE_MANAGER_STATUS_TYPE_UNINSTALL
       (Z.lor PACKAGE_MANAGER_STATUS_TYPE_UPGRADE
          (Z.lor PACKAGE_MANAGER_STATUS_TYPE_RES_COPY
             (Z.lor PACKAGE_MANAGER_STATUS_TYPE_RES_CREATE_DIR
                (Z.lor PACKAGE_MANAGER_STATUS_TYPE_RES_REMOVE
                   PACKAGE_MANAGER_STATUS_TYPE_RES_UNINSTALL))))).

(** [pkg_mgr_init]: initialize the package manager handler for the resource
    package. *)
Definition pkg_mgr_init : D Z :=
  old <- read pkg_mgr ;;
  call DPackageManagerCreate ;;
  write (set_pkg_mgr (snd (package_manager_create old))) ;;
  let ret1 := fst (package_manager_create old) in
  if negb (ret1 =? PACKAGE_MANAGER_ERROR_NONE) then
    call (DLog LOG_ERROR (MsgPackageManagerCreateFailed ret1)) ;; dret (-1)
  else
    handle <- read pkg_mgr ;;
    call (DPackageManagerSetEventStatus handle monitored_status) ;;
    let ret2 := package_manager_set_event_status handle monitored_status in
    if negb (ret2 =? PACKAGE_MANAGER_ERROR_NONE) then
      call (DLog LOG_ERROR (MsgSetEventStatusFailed ret2)) ;; dret (-1)
    else
      call (DPackageManagerSetEventCb handle) ;;
      let ret3 := package_manager_set_event_cb handle in
      if negb (ret3 =? PACKAGE_MANAGER_ERROR_NONE) then
        call (DLog LOG_ERROR (MsgSetEventCbFailed ret3)) ;; dret (-1)
      else dret 0.

(** [pkg_mgr_deinit]: finalize the package manager handler for the resource
    package. *)
Definition pkg_mgr_deinit : D Z :=
  handle <- read pkg_mgr ;;
  call (DPackageManagerDestroy handle) ;;
  let ret_ := package_manager_destroy handle in
  if negb (ret_ =? PACKAGE_MANAGER_ERROR_NONE) then
    call (DLog LOG_ERROR (MsgPackageManagerDestroyFailed ret_)) ;; dret (-1)
  else dret 0.

(** [postinit]: the post init tasks before the main loop starts. *)
Definition postinit : D Z :=
  call (DSignal SIGTERM) ;;
  call (DGdbusGetName DBUS_ML_BUS_NAME) ;;
  let ret_ := gdbus_get_name DBUS_ML_BUS_NAME in
  if ret_ <? 0 then dret ret_ else dret 0.

(** [parse_args]: parse the command line options. *)
Definition parse_args (argv : list string) : D Z :=
  call DOptionContextNew ;;
  if negb g_option_context_new then
    call (DLog LOG_ERROR MsgOptionContextNewFailed) ;; dret (- ENOMEM)
  else
    call DOptionContextAddMainEntries ;;
    call (DOptionContextSetHelpEnabled true) ;;
    call (DOptionContextSetIgnoreUnknownOptions true) ;;
    v <- read verbose ;;
    s <- read is_session ;;
    path <- read db_path ;;
    call (DOptionContextParse argv) ;;
    let parsed := g_option_context_parse argv v s path in
    write (set_options (parsed_verbose parsed) (parsed_session parsed)
             (parsed_path parsed)) ;;
    call DOptionContextFree ;;
    if negb (parse_ok parsed) then
      call (DLog LOG_ERROR (MsgOptionParsingFailed (parse_message parsed))) ;;
      dret (- EINVAL)
    else dret 0.

(** The code of [main] from its label [error] on. *)
Definition main_error (ret_ : Z) : D Z :=
  call DSvcdbFinalize ;;
  write (set_options false false None) ;;
  dret ret_.

(** [main]: the main function of the daemon. *)
Definition main (argv : list string) : D Z :=
  parsed <- parse_args argv ;;
  if negb (parsed =? 0) then main_error (- EINVAL)
  else
    path <- read db_path ;;
    (match path with
     | None => write (set_db_path (Some DB_PATH))
     | Some _ => dret tt
     end) ;;
    path <- read db_path ;;
    call (DSvcdbInitialize (or_empty path)) ;;
    call DMainLoopNew ;;
    write (set_g_mainloop (Some g_main_loop_new)) ;;
    session <- read is_session ;;
    call (DGdbusGetSystemConnection session) ;;
    call DInitModules ;;
    started <- postinit ;;
    (if started <? 0 then call (DLog LOG_ERROR MsgCannotInitSystem) else dret tt) ;;
    subscribed <- pkg_mgr_init ;;
    (if subscribed <? 0
     then call (DLog LOG_ERROR MsgCannotInitPackageManager) else dret tt) ;;
    call DMainLoopRun ;;
    call DExitModules ;;
    call DGdbusPutSystemConnection ;;
    call DMainLoopUnref ;;
    write (set_g_mainloop None) ;;
    released <- pkg_mgr_deinit ;;
    (if released <? 0
     then call (DLog LOG_WARN MsgCannotFinalizePackageManager) else dret tt) ;;
    main_error 0.

End DaemonCode.

(** What is looked at in a run of the daemon. *)
Definition result_of {S E A : Type} (r : A * S * list E) : A := fst (fst r).
Definition globals_of {S E A : Type} (r : A * S * list E) : S := snd (fst r).
Definition calls_of {S E A : Type} (r : A * S * list E) : list E := snd r.

Section DaemonObservations.

Context {HOST : Host}.

(** The calls that open and close what the daemon holds: the database, the
    package manager handle and the main loop. *)
Definition is_milestone (e : daemon_event) : bool :=
  match e with
  | DSvcdbInitialize _ | DPackageManagerCreate | DMainLoopRun
  | DPackageManagerDestroy _ | DSvcdbFinalize => true
  | _ => false
  end.

Definition is_package_manager_call (e : daemon_event) : bool :=
  match e with
  | DPackageManagerCreate | DPackageManagerSetEventStatus _ _
  | DPackageManagerSetEventCb _ | DPackageManagerDestroy _ => true
  | _ => false
  end.

Definition is_destroy (e : daemon_event) : bool :=
  match e with
  | DPackageManagerDestroy _ => true
  | _ => false
  end.

(** The three steps of [pkg_mgr_init] all succeed from a given content of
    the handle variable. *)
Definition subscription_succeeds (old : option package_manager_h) : bool :=
  let handle := snd (package_manager_create old) in
  (fst (package_manager_create old) =? PACKAGE_MANAGER_ERROR_NONE)
  && (package_manager_set_event_status handle monitored_status
      =? PACKAGE_MANAGER_ERROR_NONE)
  && (package_manager_set_event_cb handle =? PACKAGE_MANAGER_ERROR_NONE).

(** The command line is parsed: there is an option context and the parse of
    the arguments succeeds. *)
Definition arguments_parse (argv : list string) (g : globals) : bool :=
  g_option_context_new
  && parse_ok (g_option_context_parse argv (verbose g) (is_session g) (db_path g)).

End DaemonObservations.

(** Two hosts to run the daemon on. *)
Module Board.

(** The options of the daemon read off a command line: -v, -s and -p with
    its argument; a -p without argument is an error, other words are left
    alone. *)
Fixpoint parse_options (argv : list string) (v s : bool) (path : option string)
  : option_parse_result :=
  match argv with
  | [] =>
      {| parse_ok := true; parse_message := EmptyString;
         parsed_verbose := v; parsed_session := s; parsed_path := path |}
  | word :: rest =>
      if String.eqb word "-v" then parse_options rest true s path
      else if String.eqb word "-s" then parse_options rest v true path
      else if String.eqb word "-p" then
        match rest with
        | value :: rest' => parse_options rest' v s (Some value)
        | [] =>
            {| parse_ok := false; parse_message := "Missing argument for -p";
               parsed_verbose := v; parsed_session := s; parsed_path := path |}
        end
      else parse_options rest v s path
  end.

(** A host on which every call succeeds. *)
Definition host : Host :=
  {| package_manager_h := nat;
     package_manager_create := fun old => (0, Some 1%nat);
     package_manager_set_event_status := fun handle status => 0;
     package_manager_set_event_cb := fun handle => 0;
     package_manager_destroy := fun handle =>
       match handle with Some _ => 0 | None => -2 end;
     PACKAGE_MANAGER_STATUS_TYPE_INSTALL := 1;
     PACKAGE_MANAGER_STATUS_TYPE_UNINSTALL := 2;
     PACKAGE_MANAGER_STATUS_TYPE_UPGRADE := 4;
     PACKAGE_MANAGER_STATUS_TYPE_RES_COPY := 128;
     PACKAGE_MANAGER_STATUS_TYPE_RES_CREATE_DIR := 256;
     PACKAGE_MANAGER_STATUS_TYPE_RES_REMOVE := 512;
     PACKAGE_MANAGER_STATUS_TYPE_RES_UNINSTALL := 1024;
     g_option_context_new := true;
     g_option_context_parse := parse_options;
     GMainLoop := unit;
     g_main_loop_new := tt;
     gdbus_get_name := fun name => 0;
     DBUS_ML_BUS_NAME := "org.tizen.machinelearning.service";
     DB_PATH := "/var/lib/ml-agent" |}.

(** A host without package manager and without bus name: the create fails
    and leaves the handle variable as it was, the name is refused. *)
Definition bare : Host :=
  {| package_manager_h := nat;
     package_manager_create := fun old => (-38, old);
     package_manager_set_event_status := fun handle status => -2;
     package_manager_set_event_cb := fun handle => -2;
     package_manager_destroy := fun handle =>
       match handle with Some _ => 0 | None => -2 end;
     PACKAGE_MANAGER_STATUS_TYPE_INSTALL := 1;
     PACKAGE_MANAGER_STATUS_TYPE_UNINSTALL := 2;
     PACKAGE_MANAGER_STATUS_TYPE_UPGRADE := 4;
     PACKAGE_MANAGER_STATUS_TYPE_RES_COPY := 128;
     PACKAGE_MANAGER_STATUS_TYPE_RES_CREATE_DIR := 256;
     PACKAGE_MANAGER_STATUS_TYPE_RES_REMOVE := 512;
     PACKAGE_MANAGER_STATUS_TYPE_RES_UNINSTALL := 1024;
     g_option_context_new := true;
     g_option_context_parse := parse_options;
     GMainLoop := unit;
     g_main_loop_new := tt;
     gdbus_get_name := fun name => -1;
     DBUS_ML_BUS_NAME := "org.tizen.machinelearning.service";
     DB_PATH := "/var/lib/ml-agent" |}.

End Board.

(** Unfold the steps of the daemon and compute on the variables. *)
Ltac daemon_unfold :=
  unfold main, main_error, parse_args, postinit, pkg_mgr_init, pkg_mgr_deinit,
    dbind, dret, call, read, write, set_options, set_db_path, set_g_mainloop,
    set_pkg_mgr, result_of, globals_of, calls_of, or_empty in *;
  cbn [fst snd g_mainloop verbose is_session db_path pkg_mgr negb] in *.

(** Compute on the variables and the traces of the daemon. *)
Ltac daemon_compute :=
  cbn [fst snd g_mainloop verbose is_session db_path pkg_mgr negb andb
       app filter] in *.

(** Split on the conditions a goal branches on. *)
Ltac daemon_cases :=
  repeat (match goal with
          | |- context [if ?c then _ else _] =>
              let E := fresh "E" in
              destruct c eqn:E; try (cbn in E; discriminate E)
          end;
          cbn [fst snd g_mainloop verbose is_session db_path pkg_mgr negb
               app] in *).

(* ================================================================== *)
(** * Properties *)

(** ** The monad and the trace observations *)

Lemma svcdb_calls_app (t1 t2 : list event) :
  svcdb_calls (t1 ++ t2) = svcdb_calls t1 ++ svcdb_calls t2.
Proof.
  induction t1 as [|e t1 IH]; simpl; [reflexivity|].
  destruct e; simpl; rewrite IH; reflexivity.
Qed.

Lemma registrations_app (t1 t2 : list event) :
  registrations (t1 ++ t2) = registrations t1 ++ registrations t2.
Proof.
  unfold registrations. rewrite svcdb_calls_app. apply filter_app.
Qed.

Lemma skip_logs_app (t1 t2 : list event) :
  skip_logs (t1 ++ t2) = skip_logs t1 ++ skip_logs t2.
Proof. apply filter_app. Qed.

Section MonadFacts.

Context {DB : Type}.

Lemma trace_of_bind {A B : Type} (m : M DB A) (f : A -> M DB B) (db : DB) :
  trace_of (bind m f db) =
  trace_of (m db) ++ trace_of (f (fst (fst (m db))) (final_db (m db))).
Proof.
  unfold bind, trace_of, final_db.
  destruct (m db) as [[a db1] t1]; simpl.
  destruct (f a db1) as [[b db2] t2]; reflexivity.
Qed.

Lemma final_db_bind {A B : Type} (m : M DB A) (f : A -> M DB B) (db : DB) :
  final_db (bind m f db) = final_db (f (fst (fst (m db))) (final_db (m db))).
Proof.
  unfold bind, final_db.
  destruct (m db) as [[a db1] t1]; simpl.
  destruct (f a db1) as [[b db2] t2]; reflexivity.
Qed.

End MonadFacts.

Section ParseJsonFacts.

Context {DB : Type} {R : ServiceDb DB} {P : Platform}.

(** The database calls of one pass through the loop body are those of the
    record it looks at, whatever the database answers. *)
Lemma parse_json_body_calls (json_file : string) (kind : mlsvc_json_type_e)
    (app_info : option string) (array : option JsonArray) (root : option JsonNode)
    (i : nat) (db : DB) :
  svcdb_calls (trace_of (_parse_json_body json_file kind app_info array root i db))
  = record_calls kind app_info (record_at array root i).
Proof.
  unfold record_calls, well_formed, clearing_of, registration_of, has_field,
    record_field, record_at, _parse_json_body, json_array_get_object_element.
  set (object := json_node_get_object
                   match array with Some a => nth_error a i | None => root end).
  replace (match array with
           | Some a => json_node_get_object (nth_error a i)
           | None => json_node_get_object root
           end) with object by (subst object; destruct array; reflexivity).
  destruct kind; simpl.
  - destruct (json_object_get_string_member object "name") as [name|];
      [|reflexivity].
    destruct (json_object_get_string_member object "model") as [model|];
      [|reflexivity].
    simpl.
    destruct (flag_is_true (json_object_get_string_member object "clear"));
      unfold bind, svcdb, ret, ml_logi, ml_loge, emit, trace_of; simpl;
      run_db_ops; reflexivity.
  - destruct (json_object_get_string_member object "name") as [name|];
      [|reflexivity].
    destruct (json_object_get_string_member object "description") as [desc|];
      [|reflexivity].
    simpl.
    destruct (flag_is_true (json_object_get_string_member object "clear"));
      unfold bind, svcdb, ret, ml_logi, ml_loge, emit, trace_of; simpl;
      run_db_ops; reflexivity.
  - destruct (json_object_get_string_member object "name") as [name|];
      [|reflexivity].
    destruct (json_object_get_string_member object "path") as [path|];
      [|reflexivity].
    simpl.
    destruct (flag_is_true (json_object_get_string_member object "clear"));
      unfold bind, svcdb, ret, ml_logi, ml_loge, emit, trace_of; simpl;
      run_db_ops; reflexivity.
  - reflexivity.
Qed.

(** A pass through the loop body logs one skip for a malformed record and
    none for a well-formed one. *)
Lemma parse_json_body_skips (json_file : string) (kind : mlsvc_json_type_e)
    (app_info : option string) (array : option JsonArray) (root : option JsonNode)
    (i : nat) (db : DB) :
  In kind all_kinds ->
  List.length (skip_logs (trace_of (_parse_json_body json_file kind app_info array root i db)))
  = if malformed kind (record_at array root i) then 1%nat else 0%nat.
Proof.
  intros Hkind.
  unfold malformed, well_formed, has_field, record_field, record_at,
    _parse_json_body, json_array_get_object_element.
  set (object := json_node_get_object
                   match array with Some a => nth_error a i | None => root end).
  replace (match array with
           | Some a => json_node_get_object (nth_error a i)
           | None => json_node_get_object root
           end) with object by (subst object; destruct array; reflexivity).
  destruct Hkind as [<-|[<-|[<-|[]]]]; simpl.
  - destruct (json_object_get_string_member object "name") as [name|];
      [|reflexivity].
    destruct (json_object_get_string_member object "model") as [model|];
      [|reflexivity].
    simpl.
    destruct (flag_is_true (json_object_get_string_member object "clear"));
      unfold bind, svcdb, ret, ml_logi, ml_loge, emit, trace_of; simpl;
      run_db_ops; reflexivity.
  - destruct (json_object_get_string_member object "name") as [name|];
      [|reflexivity].
    destruct (json_object_get_string_member object "description") as [desc|];
      [|reflexivity].
    simpl.
    unfold bind, svcdb, ret, ml_logi, ml_loge, emit, trace_of; simpl;
      run_db_ops; reflexivity.
  - destruct (json_object_get_string_member object "name") as [name|];
      [|reflexivity].
    destruct (json_object_get_string_member object "path") as [path|];
      [|reflexivity].
    simpl.
    destruct (flag_is_true (json_object_get_string_member object "clear"));
      unfold bind, svcdb, ret, ml_logi, ml_loge, emit, trace_of; simpl;
      run_db_ops; reflexivity.
Qed.

(** The database a pass through the loop body leaves depends on the record
    only, not on the file it came from or on where in the file it stood. *)
Lemma parse_json_body_final_db (f1 f2 : string) (kind : mlsvc_json_type_e)
    (app_info : option string) (array1 array2 : option JsonArray)
    (root1 root2 : option JsonNode) (i1 i2 : nat) (db : DB) :
  record_at array1 root1 i1 = record_at array2 root2 i2 ->
  final_db (_parse_json_body f1 kind app_info array1 root1 i1 db)
  = final_db (_parse_json_body f2 kind app_info array2 root2 i2 db).
Proof.
  intros Hrec.
  unfold _parse_json_body, json_array_get_object_element.
  replace (match array1 with
           | Some a => json_node_get_object (nth_error a i1)
           | None => json_node_get_object root1
           end) with (json_node_get_object (record_at array1 root1 i1))
    by (destruct array1; reflexivity).
  replace (match array2 with
           | Some a => json_node_get_object (nth_error a i2)
           | None => json_node_get_object root2
           end) with (json_node_get_object (record_at array2 root2 i2))
    by (destruct array2; reflexivity).
  rewrite <- Hrec.
  set (object := json_node_get_object (record_at array1 root1 i1)).
  destruct kind; simpl; try reflexivity.
  - destruct (json_object_get_string_member object "name") as [name|];
      [|reflexivity].
    destruct (json_object_get_string_member object "model") as [model|];
      [|reflexivity].
    destruct (flag_is_true (json_object_get_string_member object "clear"));
      unfold bind, svcdb, ret, ml_logi, ml_loge, emit, final_db; simpl;
      run_db_ops; reflexivity.
  - destruct (json_object_get_string_member object "name") as [name|];
      [|reflexivity].
    destruct (json_object_get_string_member object "description") as [desc|];
      [|reflexivity].
    unfold bind, svcdb, ret, ml_logi, ml_loge, emit, final_db; simpl;
      run_db_ops; reflexivity.
  - destruct (json_object_get_string_member object "name") as [name|];
      [|reflexivity].
    destruct (json_object_get_string_member object "path") as [path|];
      [|reflexivity].
    destruct (flag_is_true (json_object_get_string_member object "clear"));
      unfold bind, svcdb, ret, ml_logi, ml_loge, emit, final_db; simpl;
      run_db_ops; reflexivity.
Qed.

(** The loop over [n] indices from [i]: the calls of the records in turn. *)
Lemma for_loop_body_calls (json_file : string) (kind : mlsvc_json_type_e)
    (app_info : option string) (array : option JsonArray) (root : option JsonNode)
    (n : nat) :
  forall (i : nat) (db : DB),
    svcdb_calls
      (trace_of (for_loop n i (_parse_json_body json_file kind app_info array root) db))
    = flat_map (record_calls kind app_info) (map (record_at array root) (seq i n)).
Proof.
  induction n as [|n IH]; intros i db; [reflexivity|].
  cbn [for_loop seq map flat_map].
  rewrite trace_of_bind, svcdb_calls_app, parse_json_body_calls, IH.
  reflexivity.
Qed.

Lemma for_loop_body_skips (json_file : string) (kind : mlsvc_json_type_e)
    (app_info : option string) (array : option JsonArray) (root : option JsonNode)
    (n : nat) :
  In kind all_kinds ->
  forall (i : nat) (db : DB),
    List.length (skip_logs
      (trace_of (for_loop n i (_parse_json_body json_file kind app_info array root) db)))
    = List.length (filter (malformed kind) (map (record_at array root) (seq i n))).
Proof.
  intros Hkind.
  induction n as [|n IH]; intros i db; [reflexivity|].
  cbn [for_loop seq map filter].
  rewrite trace_of_bind, skip_logs_app, length_app, parse_json_body_skips, IH
    by assumption.
  destruct (malformed kind (record_at array root i)); reflexivity.
Qed.

(** Walking the indices of an array visits its elements in order. *)
Lemma map_nth_error_seq {A : Type} (pre l : list A) :
  map (nth_error (pre ++ l)) (seq (List.length pre) (List.length l)) = map Some l.
Proof.
  revert pre. induction l as [|x l IH]; intros pre; [reflexivity|].
  cbn [List.length seq map]. f_equal.
  - rewrite nth_error_app2 by lia. rewrite Nat.sub_diag. reflexivity.
  - specialize (IH (pre ++ [x])).
    rewrite length_app, Nat.add_1_r, <- app_assoc in IH. exact IH.
Qed.

Lemma records_of_array (a : JsonArray) :
  map (record_at (Some a) (Some (JsonArrayNode a))) (seq 0 (List.length a))
  = records_of_root (Some (JsonArrayNode a)).
Proof. exact (map_nth_error_seq [] a). Qed.

End ParseJsonFacts.

(* ------------------------------------------------------------------ *)
(** ** ASCII case-insensitive comparison *)

Lemma char_code_inj (a b : ascii) : char_code a = char_code b -> a = b.
Proof.
  unfold char_code. intros H. apply N2Z.inj in H.
  rewrite <- (ascii_N_embedding a), <- (ascii_N_embedding b), H. reflexivity.
Qed.

Lemma char_code_nonneg (a : ascii) : 0 <= char_code a.
Proof. unfold char_code. lia. Qed.

Lemma cstr_head_zero (s : string) : cstr_head s = 0 <-> c_str s = EmptyString.
Proof.
  destruct s as [|c r]; simpl; [tauto|].
  destruct (char_code c =? 0) eqn:E.
  - apply Z.eqb_eq in E. tauto.
  - apply Z.eqb_neq in E. split; [contradiction|discriminate].
Qed.

Lemma ascii_lower_empty (s : string) : ascii_lower s = EmptyString <-> s = EmptyString.
Proof. destruct s; simpl; split; intros H; try reflexivity; discriminate. Qed.

(** [g_ascii_strcasecmp] returns 0 exactly on C strings that are equal up to
    the case of their ASCII letters. *)
Lemma g_ascii_strcasecmp_zero (s1 : string) :
  forall s2, g_ascii_strcasecmp s1 s2 = 0 <-> ascii_ci_eq s1 s2.
Proof.
  unfold ascii_ci_eq.
  induction s1 as [|a r1 IH]; intros s2.
  - destruct s2 as [|b r2]; simpl; [tauto|].
    destruct (char_code b =? 0) eqn:Eb; simpl.
    + apply Z.eqb_eq in Eb. split; [reflexivity|lia].
    + apply Z.eqb_neq in Eb. split; [lia|discriminate].
  - destruct s2 as [|b r2].
    + simpl. destruct (char_code a =? 0) eqn:Ea; simpl.
      * apply Z.eqb_eq in Ea. split; [reflexivity|lia].
      * apply Z.eqb_neq in Ea. split; [lia|discriminate].
    + cbn [g_ascii_strcasecmp c_str cstr_head].
      destruct (char_code a =? 0) eqn:Ea; destruct (char_code b =? 0) eqn:Eb;
        cbn [orb ascii_lower].
      * apply Z.eqb_eq in Ea, Eb. split; [reflexivity|lia].
      * apply Z.eqb_eq in Ea. apply Z.eqb_neq in Eb. split; [lia|discriminate].
      * apply Z.eqb_eq in Eb. apply Z.eqb_neq in Ea. split; [lia|discriminate].
      * destruct (char_code (TOLOWER a) =? char_code (TOLOWER b)) eqn:Ec.
        -- apply Z.eqb_eq, char_code_inj in Ec. rewrite Ec, IH.
           split; [intros ->; reflexivity|intros H; injection H; auto].
        -- apply Z.eqb_neq in Ec. split; [lia|].
           intros H. injection H as H _. rewrite H in Ec. contradiction.
Qed.

(* ------------------------------------------------------------------ *)
(** ** The descriptor file as a whole *)

Section DescriptorFile.

Context {DB : Type} {R : ServiceDb DB} {P : Platform}.

(** Once the descriptor file is there and loads, [_parse_json] is the two
    file accesses followed by the loop over the records. *)
Lemma parse_json_loaded (json_path : string) (kind : mlsvc_json_type_e)
    (app_info : option string) (json_file : string) (root : option JsonNode)
    (db : DB) :
  json_file_of json_path kind = Some json_file ->
  g_file_test json_file descriptor_test = true ->
  json_parser_load_from_file json_file = JsonLoadRoot root ->
  _parse_json json_path kind app_info db
  = (tt,
     final_db (root_loop json_file kind app_info root db),
     [EvFileTest json_file descriptor_test; EvJsonLoad json_file]
     ++ trace_of (root_loop json_file kind app_info root db)).
Proof.
  intros Hfile Hfound Hload.
  unfold _parse_json. rewrite Hfile.
  unfold bind at 1. unfold file_test at 1.
  fold descriptor_test. rewrite Hfound. cbn [negb].
  unfold bind at 1. unfold parser_load at 1. rewrite Hload.
  unfold root_loop, final_db, trace_of.
  destruct root as [[o|a|v|]|]; cbn [JSON_NODE_HOLDS_ARRAY json_node_get_array];
    match goal with
    | |- context [for_loop ?n ?i ?b db] =>
        destruct (for_loop n i b db) as [[[] db'] t]
    end; reflexivity.
Qed.

Lemma root_loop_calls (json_file : string) (kind : mlsvc_json_type_e)
    (app_info : option string) (root : option JsonNode) (db : DB) :
  svcdb_calls (trace_of (root_loop json_file kind app_info root db))
  = flat_map (record_calls kind app_info) (records_of_root root).
Proof.
  unfold root_loop.
  destruct root as [[o|a|v|]|]; cbn [json_node_get_array];
    rewrite for_loop_body_calls; try reflexivity.
  unfold json_array_get_length. rewrite records_of_array. reflexivity.
Qed.

Lemma root_loop_skips (json_file : string) (kind : mlsvc_json_type_e)
    (app_info : option string) (root : option JsonNode) (db : DB) :
  In kind all_kinds ->
  List.length (skip_logs (trace_of (root_loop json_file kind app_info root db)))
  = List.length (filter (malformed kind) (records_of_root root)).
Proof.
  intros Hkind. unfold root_loop.
  destruct root as [[o|a|v|]|]; cbn [json_node_get_array];
    rewrite for_loop_body_skips by assumption; try reflexivity.
  unfold json_array_get_length. rewrite records_of_array. reflexivity.
Qed.

(** The database calls of a descriptor file are the calls of its records,
    in the order of the file. *)
Lemma parse_json_calls (json_path : string) (kind : mlsvc_json_type_e)
    (app_info : option string) (json_file : string) (root : option JsonNode)
    (db : DB) :
  json_file_of json_path kind = Some json_file ->
  g_file_test json_file descriptor_test = true ->
  json_parser_load_from_file json_file = JsonLoadRoot root ->
  svcdb_calls (trace_of (_parse_json json_path kind app_info db))
  = flat_map (record_calls kind app_info) (records_of_root root).
Proof.
  intros Hfile Hfound Hload.
  rewrite (parse_json_loaded _ _ _ db Hfile Hfound Hload).
  unfold trace_of at 1. cbn [snd app svcdb_calls].
  apply root_loop_calls.
Qed.

Lemma json_file_of_kind (json_path : string) (kind : mlsvc_json_type_e)
    (json_file : string) :
  json_file_of json_path kind = Some json_file -> In kind all_kinds.
Proof. destruct kind; simpl; intros H; auto; discriminate. Qed.

End DescriptorFile.

(** Lists of records. *)

Lemma registration_of_is_registration (kind : mlsvc_json_type_e)
    (app_info : option string) (record : option JsonNode) :
  is_registration (registration_of kind app_info record) = true.
Proof. destruct kind; reflexivity. Qed.

Lemma clearing_of_no_registration (kind : mlsvc_json_type_e)
    (record : option JsonNode) :
  filter is_registration (clearing_of kind record) = [].
Proof.
  unfold clearing_of.
  destruct (flag_is_true (record_field record "clear")); [|reflexivity].
  destruct kind; reflexivity.
Qed.

Lemma registrations_of_records (kind : mlsvc_json_type_e)
    (app_info : option string) (records : list (option JsonNode)) :
  filter is_registration (flat_map (record_calls kind app_info) records)
  = map (registration_of kind app_info) (filter (well_formed kind) records).
Proof.
  induction records as [|r records IH]; [reflexivity|].
  cbn [flat_map filter]. rewrite filter_app, IH.
  unfold record_calls.
  destruct (well_formed kind r); [|reflexivity].
  rewrite filter_app, clearing_of_no_registration. cbn [filter app].
  rewrite registration_of_is_registration. reflexivity.
Qed.

Lemma well_formed_malformed_count (kind : mlsvc_json_type_e)
    (records : list (option JsonNode)) :
  List.length (filter (well_formed kind) records)
  = (List.length records - List.length (filter (malformed kind) records))%nat.
Proof.
  unfold malformed.
  induction records as [|r records IH]; [reflexivity|].
  cbn [filter]. 
  assert (Hle : (List.length (filter (fun x => negb (well_formed kind x)) records)
                 <= List.length records)%nat) by apply filter_length_le.
  destruct (well_formed kind r); cbn [negb List.length]; lia.
Qed.

(* ------------------------------------------------------------------ *)
(** ** Records of a descriptor file *)

(** C1.  A descriptor file whose root is an array of N elements, M of them
    malformed for the kind of the file (a required field, name and model for
    a model, name and description for a pipeline, name and path for a
    resource, cannot be read as a string from the element): the registration
    attempts are those of the well-formed elements, one each and in the order
    of the array, so there are N - M of them, and M skips are logged.  A
    malformed element stops nothing: the elements after it are registered. *)
Theorem descriptor_array_registrations
    {DB : Type} {R : ServiceDb DB} {P : Platform}
    (json_path : string) (kind : mlsvc_json_type_e) (app_info : option string)
    (json_file : string) (elements : list JsonNode) (db : DB) :
  json_file_of json_path kind = Some json_file ->
  g_file_test json_file descriptor_test = true ->
  json_parser_load_from_file json_file
  = JsonLoadRoot (Some (JsonArrayNode elements)) ->
  let t := trace_of (_parse_json json_path kind app_info db) in
  let records := map Some elements in
  let N := List.length elements in
  let M := List.length (filter (malformed kind) records) in
  registrations t
  = map (registration_of kind app_info) (filter (well_formed kind) records)
  /\ List.length (registrations t) = (N - M)%nat
  /\ List.length (skip_logs t) = M.
Proof.
  intros Hfile Hfound Hload t records N M.
  assert (Hreg : registrations t
                 = map (registration_of kind app_info)
                     (filter (well_formed kind) records)).
  { unfold registrations, t.
    rewrite (parse_json_calls _ _ _ db Hfile Hfound Hload).
    apply registrations_of_records. }
  split; [exact Hreg|split].
  - rewrite Hreg, length_map, well_formed_malformed_count.
    unfold N, M, records. rewrite length_map. reflexivity.
  - unfold t. rewrite (parse_json_loaded _ _ _ db Hfile Hfound Hload).
    unfold trace_of at 1. cbn [snd app skip_logs filter is_skip_log].
    apply (root_loop_skips json_file app_info (Some (JsonArrayNode elements)) db).
    exact (json_file_of_kind _ _ Hfile).
Qed.

(** A field the record does not have at all is a missing field. *)
Lemma absent_member_is_missing (o : JsonObject) (field : string) :
  object_get_member_internal o field = None ->
  has_field (Some (JsonObjectNode o)) field = false.
Proof.
  intros H. unfold has_field, record_field. simpl. rewrite H. reflexivity.
Qed.

(** A record of a kind that lacks one of the kind's fields is malformed. *)
Lemma missing_field_malformed (kind : mlsvc_json_type_e)
    (record : option JsonNode) (field : string) :
  In field (required_fields kind) ->
  has_field record field = false ->
  malformed kind record = true.
Proof.
  intros Hin Hno. unfold malformed, well_formed.
  destruct kind; simpl in Hin |- *;
    repeat match goal with
    | H : _ \/ _ |- _ => destruct H as [<-|H]
    | H : False |- _ => destruct H
    end; rewrite Hno; simpl; rewrite ?andb_false_r; reflexivity.
Qed.

(** For a record whose members hold strings, being malformed is the same as
    lacking one of the fields of the kind altogether. *)
Lemma malformed_iff_field_absent (kind : mlsvc_json_type_e) (o : JsonObject) :
  In kind all_kinds ->
  typed_record o ->
  malformed kind (Some (JsonObjectNode o)) = true
  <-> exists field,
        In field (required_fields kind)
        /\ object_get_member_internal o field = None.
Proof.
  intros Hkind Htyped.
  assert (Hfield : forall field,
            has_field (Some (JsonObjectNode o)) field = false
            <-> object_get_member_internal o field = None).
  { intros field. unfold has_field, record_field. simpl.
    destruct (object_get_member_internal o field) as [node|] eqn:Hm.
    - destruct (Htyped field node Hm) as [s ->]. simpl.
      split; discriminate.
    - tauto. }
  split.
  - intros Hmal. unfold malformed, well_formed in Hmal.
    destruct Hkind as [<-|[<-|[<-|[]]]]; cbn [required_fields forallb] in Hmal |- *;
      match type of Hmal with
      | negb (has_field ?r ?f1 && (has_field ?r ?f2 && true)) = true =>
          destruct (has_field r f1) eqn:H1;
          [destruct (has_field r f2) eqn:H2;
           [discriminate
           |exists f2; split; [simpl; auto|apply Hfield; exact H2]]
          |exists f1; split; [simpl; auto|apply Hfield; exact H1]]
      end.
  - intros (field & Hin & Habs).
    apply (missing_field_malformed kind _ field Hin).
    apply Hfield. exact Habs.
Qed.

(** The resource descriptor of package app1 on the device: three records,
    the second without a path. *)
Lemma descriptor_array_registrations_witness :
  let t := trace_of (Device.parse (Device.root_of "app1") MLSVC_JSON_RESOURCE
                       (Some "info") Registry.empty) in
  registrations t
  = [CallResourceAdd "r1" "r1.dat" EmptyString "info";
     CallResourceAdd "r3" "r3.dat" "third" "info"]
  /\ List.length (registrations t) = 2%nat
  /\ List.length (skip_logs t) = 1%nat.
Proof.
  exact (@descriptor_array_registrations _ Registry.service_db Device.platform
           (Device.root_of "app1") MLSVC_JSON_RESOURCE (Some "info")
           (Device.root_of "app1" ++ "/resource_description.json")%string
           Device.resource_records Registry.empty
           eq_refl eq_refl eq_refl).
Defined.

(* ------------------------------------------------------------------ *)
(** ** Boolean-like fields *)

(** C3.  The boolean read from a field of a record (the fields activate and
    clear, and any other field read the same way) is true exactly when the
    record is an object that has the field as a JSON string equal to the
    token true under ASCII case-insensitive comparison.  An absent field, a
    field that is not a string (a JSON boolean, a number) and any other
    string give false. *)
Theorem boolean_field_strict (object : option JsonObject) (field : string) :
  flag_is_true (json_object_get_string_member object field) = true
  <-> exists (o : JsonObject) (s : string),
        object = Some o
        /\ object_get_member_internal o field = Some (JsonValueNode (JsonString s))
        /\ ascii_ci_eq s "true".
Proof.
  unfold flag_is_true, json_object_get_string_member.
  split.
  - destruct object as [o|]; [|discriminate].
    destruct (object_get_member_internal o field) as [node|] eqn:Hm;
      [|discriminate].
    destruct node as [ms|es|[i|d|b|s]|]; simpl; try discriminate.
    intros H. apply Z.eqb_eq, g_ascii_strcasecmp_zero in H.
    exists o, s. auto.
  - intros (o & s & -> & Hm & Hci). rewrite Hm. simpl.
    apply Z.eqb_eq, g_ascii_strcasecmp_zero. exact Hci.
Qed.

(** Against the token true the comparison asks that the C string, with its
    ASCII capitals lowered, reads true. *)
Lemma ci_eq_true_spelled (s : string) :
  ascii_ci_eq s "true" <-> ascii_lower (c_str s) = "true".
Proof. unfold ascii_ci_eq. reflexivity. Qed.

Example flag_true_upper :
  flag_is_true (record_field (Some (JsonObjectNode [("activate", Device.str "TrUe")]))
                  "activate") = true.
Proof. reflexivity. Qed.

Example flag_one_is_false :
  flag_is_true (record_field (Some (JsonObjectNode [("activate", Device.str "1")]))
                  "activate") = false.
Proof. reflexivity. Qed.

Example flag_yes_is_false :
  flag_is_true (record_field (Some (JsonObjectNode [("clear", Device.str "yes")]))
                  "clear") = false.
Proof. reflexivity. Qed.

Example flag_json_boolean_is_false :
  flag_is_true
    (record_field
       (Some (JsonObjectNode [("clear", JsonValueNode (JsonBoolean true))]))
       "clear") = false.
Proof. reflexivity. Qed.

Example flag_absent_is_false :
  flag_is_true (record_field (Some (JsonObjectNode [("name", Device.str "m")]))
                  "activate") = false.
Proof. reflexivity. Qed.

(* ------------------------------------------------------------------ *)
(** ** One object or an array of one object *)

(** C4.  For every JSON object [o] and every kind, a descriptor file whose
    root is [o] and a descriptor file whose root is the array holding only
    [o] lead to the same database calls, in the same order, and leave the
    same database. *)
Theorem single_object_as_one_element_array
    {DB : Type} {R : ServiceDb DB} {P : Platform}
    (path1 path2 : string) (kind : mlsvc_json_type_e) (app_info : option string)
    (file1 file2 : string) (o : JsonObject) (db : DB) :
  json_file_of path1 kind = Some file1 ->
  json_file_of path2 kind = Some file2 ->
  g_file_test file1 descriptor_test = true ->
  g_file_test file2 descriptor_test = true ->
  json_parser_load_from_file file1 = JsonLoadRoot (Some (JsonObjectNode o)) ->
  json_parser_load_from_file file2
  = JsonLoadRoot (Some (JsonArrayNode [JsonObjectNode o])) ->
  svcdb_calls (trace_of (_parse_json path1 kind app_info db))
  = svcdb_calls (trace_of (_parse_json path2 kind app_info db))
  /\ final_db (_parse_json path1 kind app_info db)
     = final_db (_parse_json path2 kind app_info db).
Proof.
  intros Hf1 Hf2 Ht1 Ht2 Hl1 Hl2. split.
  - rewrite (parse_json_calls _ _ _ db Hf1 Ht1 Hl1),
            (parse_json_calls _ _ _ db Hf2 Ht2 Hl2).
    reflexivity.
  - rewrite (parse_json_loaded _ _ _ db Hf1 Ht1 Hl1),
            (parse_json_loaded _ _ _ db Hf2 Ht2 Hl2).
    unfold final_db at 1 3. cbn [fst snd].
    unfold root_loop. cbn [json_node_get_array json_array_get_length List.length for_loop].
    rewrite !final_db_bind.
    unfold ret at 1 2. unfold final_db at 1 3. cbn [fst snd].
    apply parse_json_body_final_db. reflexivity.
Qed.

(** Packages app1 and app2 on the device carry the same model record, app1
    as the root object and app2 inside an array. *)
Lemma single_object_as_one_element_array_witness :
  svcdb_calls (trace_of (Device.parse (Device.root_of "app1") MLSVC_JSON_MODEL
                           (Some "info") Registry.empty))
  = svcdb_calls (trace_of (Device.parse (Device.root_of "app2") MLSVC_JSON_MODEL
                             (Some "info") Registry.empty))
  /\ final_db (Device.parse (Device.root_of "app1") MLSVC_JSON_MODEL
                 (Some "info") Registry.empty)
     = final_db (Device.parse (Device.root_of "app2") MLSVC_JSON_MODEL
                   (Some "info") Registry.empty).
Proof.
  exact (@single_object_as_one_element_array _ Registry.service_db Device.platform
           (Device.root_of "app1") (Device.root_of "app2") MLSVC_JSON_MODEL
           (Some "info")
           (Device.root_of "app1" ++ "/model_description.json")%string
           (Device.root_of "app2" ++ "/model_description.json")%string
           Device.m1 Registry.empty
           eq_refl eq_refl eq_refl eq_refl eq_refl eq_refl).
Defined.

(* ------------------------------------------------------------------ *)
(** ** Clearing before adding *)

Section ClearPrevious.

Context {DB : Type} {R : ServiceDb DB} {P : Platform}.

(** C5.  Whatever the database answers to any call (so also when the delete
    fails), a valid model record whose clear field is the token true is
    first deleted with version 0, which stands for all versions, and then
    added; a valid resource record whose clear field is the token true is
    first deleted and then added; without the token there is the add alone.
    The record may be the root object or stand at any index of a root
    array. *)
Theorem clear_previous_delete_then_add
    (json_file : string) (app_info : option string)
    (array : option JsonArray) (root : option JsonNode) (i : nat)
    (name target : string) (db : DB) :
  let record := record_at array root i in
  let clear_previous := flag_is_true (record_field record "clear") in
  let description := or_empty (record_field record "description") in
  let calls kind :=
    svcdb_calls
      (trace_of (_parse_json_body json_file kind app_info array root i db)) in
  record_field record "name" = Some name ->
  (record_field record "model" = Some target ->
   calls MLSVC_JSON_MODEL
   = (if clear_previous then [CallModelDelete name 0] else [])
     ++ [CallModelAdd name target (flag_is_true (record_field record "activate"))
           description (or_empty app_info)])
  /\ (record_field record "path" = Some target ->
      calls MLSVC_JSON_RESOURCE
      = (if clear_previous then [CallResourceDelete name] else [])
        ++ [CallResourceAdd name target description (or_empty app_info)]).
Proof.
  intros record clear_previous description calls Hname.
  split; intros Htarget; unfold calls; rewrite parse_json_body_calls;
    fold record;
    unfold record_calls, well_formed, clearing_of, registration_of, has_field;
    cbn [required_fields forallb];
    rewrite Hname, Htarget; reflexivity.
Qed.

End ClearPrevious.

(** The model record of package app1 does not ask for clearing: it is added
    and nothing is deleted.  The first resource record of app1 asks for it;
    nothing of its name is registered yet, so the delete fails, and the add
    follows. *)
Lemma clear_previous_delete_then_add_witness :
  svcdb_calls
    (trace_of
       (@_parse_json_body _ Registry.service_db "model_description.json"
          MLSVC_JSON_MODEL (Some "info") None
          (Some (JsonObjectNode Device.m1)) 0 Registry.empty))
  = [CallModelAdd "m1" "m1.tflite" true EmptyString "info"]
  /\ fst (Registry.deleteResource "r1" Registry.empty) = Registry.failure
  /\ svcdb_calls
       (trace_of
          (@_parse_json_body _ Registry.service_db "resource_description.json"
             MLSVC_JSON_RESOURCE (Some "info") (Some Device.resource_records)
             (Some (JsonArrayNode Device.resource_records)) 0 Registry.empty))
     = [CallResourceDelete "r1"; CallResourceAdd "r1" "r1.dat" EmptyString "info"].
Proof.
  split; [|split; [reflexivity|]].
  - exact (proj1
             (@clear_previous_delete_then_add _ Registry.service_db
                "model_description.json" (Some "info") None
                (Some (JsonObjectNode Device.m1)) 0%nat
                "m1" "m1.tflite" Registry.empty eq_refl)
             eq_refl).
  - exact (proj2
             (@clear_previous_delete_then_add _ Registry.service_db
                "resource_description.json" (Some "info")
                (Some Device.resource_records)
                (Some (JsonArrayNode Device.resource_records)) 0%nat
                "r1" "r1.dat" Registry.empty eq_refl)
             eq_refl).
Defined.

(* ------------------------------------------------------------------ *)
(** ** A root that is neither an array nor an object *)

(** C10.  A descriptor file whose root is neither an array nor an object (a
    bare string, number, boolean or null, or no root at all) is handled as
    one record none of whose fields can be read: the record is skipped with
    the error of its kind, no database call is made, the database is left as
    it was, and [_parse_json] returns. *)
Theorem scalar_root_is_skipped
    {DB : Type} {R : ServiceDb DB} {P : Platform}
    (json_path : string) (kind : mlsvc_json_type_e) (app_info : option string)
    (json_file : string) (root : option JsonNode) (db : DB) :
  json_file_of json_path kind = Some json_file ->
  g_file_test json_file descriptor_test = true ->
  json_parser_load_from_file json_file = JsonLoadRoot root ->
  holds_array_or_object root = false ->
  (forall field, record_field root field = None)
  /\ _parse_json json_path kind app_info db
     = (tt, db,
        [EvFileTest json_file descriptor_test; EvJsonLoad json_file;
         EvLog LOG_ERROR (skip_msg kind json_file)])
  /\ svcdb_calls (trace_of (_parse_json json_path kind app_info db)) = [].
Proof.
  intros Hfile Hfound Hload Hroot.
  assert (Hobj : json_node_get_object root = None)
    by (destruct root as [[o|a|v|]|]; try reflexivity; discriminate).
  assert (Harr : json_node_get_array root = None)
    by (destruct root as [[o|a|v|]|]; try reflexivity; discriminate).
  assert (Hrun : _parse_json json_path kind app_info db
                 = (tt, db,
                    [EvFileTest json_file descriptor_test; EvJsonLoad json_file;
                     EvLog LOG_ERROR (skip_msg kind json_file)])).
  { rewrite (parse_json_loaded _ _ _ db Hfile Hfound Hload).
    unfold root_loop. rewrite Harr. cbn [for_loop].
    unfold _parse_json_body. rewrite Hobj.
    pose proof (json_file_of_kind _ _ Hfile) as Hkind.
    destruct Hkind as [<-|[<-|[<-|[]]]]; reflexivity. }
  split; [|split].
  - intros field. unfold record_field. rewrite Hobj. reflexivity.
  - exact Hrun.
  - rewrite Hrun. reflexivity.
Qed.

(** Package app4 on the device ships a model descriptor that is one bare
    string. *)
Lemma scalar_root_is_skipped_witness :
  let json_file := (Device.root_of "app4" ++ "/model_description.json")%string in
  (forall field, record_field (Some (Device.str "m1.tflite")) field = None)
  /\ Device.parse (Device.root_of "app4") MLSVC_JSON_MODEL (Some "info")
       Registry.empty
     = (tt, Registry.empty,
        [EvFileTest json_file descriptor_test; EvJsonLoad json_file;
         EvLog LOG_ERROR (MsgNoNameOrModel json_file)])
  /\ svcdb_calls
       (trace_of (Device.parse (Device.root_of "app4") MLSVC_JSON_MODEL
                    (Some "info") Registry.empty)) = [].
Proof.
  exact (@scalar_root_is_skipped _ Registry.service_db Device.platform
           (Device.root_of "app4") MLSVC_JSON_MODEL (Some "info")
           (Device.root_of "app4" ++ "/model_description.json")%string
           (Some (Device.str "m1.tflite")) Registry.empty
           eq_refl eq_refl eq_refl eq_refl).
Defined.

(* ------------------------------------------------------------------ *)
(** ** The event handler *)

Section EventHandler.

Context {DB : Type} {R : ServiceDb DB} {P : Platform}.

Lemma log_file_names_run (names : list string) (db : DB) :
  log_file_names names db
  = (tt, db, map (fun n => EvLog LOG_INFO (MsgFile n)) names).
Proof.
  induction names as [|n names IH]; [reflexivity|].
  cbn [log_file_names map]. unfold bind, ml_logi, emit. rewrite IH. reflexivity.
Qed.

(** Listing the package path leaves the database alone, and the trace shows
    logs, the directory test and the opening of the directory only. *)
Lemma echo_pkg_path_info_observes (pkg_path : string) (db : DB) :
  final_db (_pkg_mgr_echo_pkg_path_info pkg_path db) = db
  /\ Forall (fun e => is_observation pkg_path e = true)
       (trace_of (_pkg_mgr_echo_pkg_path_info pkg_path db)).
Proof.
  unfold _pkg_mgr_echo_pkg_path_info, bind, file_test, dir_open, ml_logi, emit.
  assert (Hself : is_observation pkg_path (EvFileTest pkg_path G_FILE_TEST_IS_DIR)
                  = true)
    by (simpl; rewrite String.eqb_refl; reflexivity).
  assert (Hopen : is_observation pkg_path (EvDirOpen pkg_path) = true)
    by (simpl; apply String.eqb_refl).
  destruct (g_file_test pkg_path G_FILE_TEST_IS_DIR).
  - destruct (g_dir_open pkg_path) as [names|]; cbn beta iota.
    + rewrite log_file_names_run. split; [reflexivity|].
      unfold trace_of. cbn [snd app].
      repeat (constructor; [assumption || reflexivity|]).
      apply Forall_forall. intros e He. apply in_map_iff in He.
      destruct He as (n & <- & _). reflexivity.
    + split; [reflexivity|].
      unfold trace_of. cbn [snd app].
      repeat (constructor; [assumption || reflexivity|]). constructor.
  - split; [reflexivity|].
    unfold trace_of. cbn [snd app].
    repeat (constructor; [assumption || reflexivity|]). constructor.
Qed.

Lemma destroy_pkg_info_logs (pkg_info : package_info_h) (db : DB) :
  final_db (destroy_pkg_info pkg_info db) = db
  /\ Forall (fun e => is_log e = true) (trace_of (destroy_pkg_info pkg_info db)).
Proof.
  unfold destroy_pkg_info.
  destruct (negb (package_info_destroy pkg_info =? PACKAGE_MANAGER_ERROR_NONE));
    split; try reflexivity; repeat constructor.
Qed.

Lemma log_is_quiet (e : event) :
  is_log e = true -> is_file_access e = false /\ is_svcdb e = false.
Proof. destruct e; simpl; intros H; try discriminate; split; reflexivity. Qed.

(** C2.  An install-completion event whose package metadata lookup fails (the
    package information cannot be created, or the query of the resource type
    or of the resource version fails): the handler returns having only
    logged.  No file is tested or loaded, no database call is made, and the
    database is as it was. *)
Theorem lookup_failure_aborts (type package_name : string) (progress error : Z)
    (db : DB) :
  let created := package_info_create package_name in
  let pkg_info := snd created in
  (fst created <> PACKAGE_MANAGER_ERROR_NONE
   \/ fst (package_info_get_res_type pkg_info) <> PACKAGE_MANAGER_ERROR_NONE
   \/ fst (package_info_get_res_version pkg_info) <> PACKAGE_MANAGER_ERROR_NONE) ->
  let r := _pkg_mgr_event_cb type package_name
             PACKAGE_MANAGER_EVENT_TYPE_INSTALL
             PACKAGE_MANAGER_EVENT_STATE_COMPLETED progress error db in
  final_db r = db
  /\ svcdb_calls (trace_of r) = []
  /\ Forall (fun e => is_file_access e = false /\ is_svcdb e = false) (trace_of r).
Proof.
  intros created pkg_info Hfail r.
  assert (Hlogs : final_db r = db /\ Forall (fun e => is_log e = true) (trace_of r)).
  { subst r. unfold _pkg_mgr_event_cb.
    rewrite final_db_bind, trace_of_bind.
    unfold ml_logi at 1 2 3. unfold emit, final_db at 2 3, trace_of at 1.
    cbn [fst snd is_res_copy].
    destruct (negb (g_ascii_strcasecmp type "rpk" =? 0));
      [split; [reflexivity|repeat constructor]|].
    fold created. destruct created as [ret1 h] eqn:Ecreated.
    subst pkg_info. cbn [fst snd] in Hfail.
    destruct (ret1 =? PACKAGE_MANAGER_ERROR_NONE) eqn:E1; cbn [negb];
      [|split; [reflexivity|repeat constructor]].
    apply Z.eqb_eq in E1.
    destruct (package_info_get_res_type h) as [ret2 res_type].
    cbn [fst] in Hfail.
    destruct (ret2 =? PACKAGE_MANAGER_ERROR_NONE) eqn:E2; cbn [negb].
    - apply Z.eqb_eq in E2.
      destruct (package_info_get_res_version h) as [ret3 res_version].
      cbn [fst] in Hfail.
      destruct (ret3 =? PACKAGE_MANAGER_ERROR_NONE) eqn:E3; cbn [negb].
      + apply Z.eqb_eq in E3. exfalso. tauto.
      + rewrite final_db_bind, trace_of_bind.
        unfold ml_loge at 1 2 3. unfold emit, final_db at 2 3, trace_of at 2.
        cbn [fst snd].
        destruct (destroy_pkg_info_logs h db) as [Hdb Htr].
        split; [exact Hdb|].
        constructor; [reflexivity|]. cbn [app].
        constructor; [reflexivity|exact Htr].
    - rewrite final_db_bind, trace_of_bind.
      unfold ml_loge at 1 2 3. unfold emit, final_db at 2 3, trace_of at 2.
      cbn [fst snd].
      destruct (destroy_pkg_info_logs h db) as [Hdb Htr].
      split; [exact Hdb|].
      constructor; [reflexivity|]. cbn [app].
      constructor; [reflexivity|exact Htr]. }
  destruct Hlogs as [Hdb Hlog].
  split; [exact Hdb|split].
  - induction Hlog as [|e t He _ IH]; [reflexivity|].
    destruct e; try discriminate. exact IH.
  - eapply Forall_impl; [|exact Hlog]. intros e. apply log_is_quiet.
Qed.

Lemma observation_no_svcdb (pkg_path : string) (t : list event) :
  Forall (fun e => is_observation pkg_path e = true) t -> svcdb_calls t = [].
Proof.
  induction 1 as [|e t He _ IH]; [reflexivity|].
  destruct e; try discriminate; exact IH.
Qed.

(** C7.  An uninstall event in the started phase and an update event in the
    completed phase: the handler logs and, for a resource package, lists the
    package directory; every event of the trace is a log, the directory test
    of the package path or the opening of that directory.  No descriptor is
    loaded, no database call is made, and the database after the event is
    the database before it. *)
Theorem uninstall_update_observe_only (type package_name : string)
    (event_type : package_manager_event_type_e)
    (event_state : package_manager_event_state_e) (progress error : Z) (db : DB) :
  (event_type = PACKAGE_MANAGER_EVENT_TYPE_UNINSTALL
   /\ event_state = PACKAGE_MANAGER_EVENT_STATE_STARTED)
  \/ (event_type = PACKAGE_MANAGER_EVENT_TYPE_UPDATE
      /\ event_state = PACKAGE_MANAGER_EVENT_STATE_COMPLETED) ->
  let r := _pkg_mgr_event_cb type package_name event_type event_state
             progress error db in
  final_db r = db
  /\ svcdb_calls (trace_of r) = []
  /\ Forall (fun e => is_observation (pkg_path_of package_name) e = true)
       (trace_of r).
Proof.
  intros Hevent r.
  assert (Hobs : final_db r = db
                 /\ Forall (fun e => is_observation (pkg_path_of package_name) e = true)
                      (trace_of r)).
  { subst r. unfold _pkg_mgr_event_cb.
    rewrite final_db_bind, trace_of_bind.
    unfold ml_logi at 1 2 3. unfold emit, final_db at 2 3, trace_of at 1.
    cbn [fst snd].
    destruct (echo_pkg_path_info_observes (pkg_path_of package_name) db)
      as [Hdb Htr].
    destruct Hevent as [[-> ->]|[-> ->]]; cbn [is_res_copy];
      (destruct (negb (g_ascii_strcasecmp type "rpk" =? 0));
       [split; [reflexivity|repeat constructor]|]);
      rewrite final_db_bind, trace_of_bind;
      unfold ml_logi at 1 2 3; unfold emit, final_db at 2 3, trace_of at 2;
      cbn [fst snd];
      (split; [exact Hdb|]);
      (constructor; [reflexivity|]); cbn [app];
      (constructor; [reflexivity|exact Htr]). }
  destruct Hobs as [Hdb Hobs].
  split; [exact Hdb|split; [|exact Hobs]].
  exact (observation_no_svcdb _ Hobs).
Qed.

(** C9.  For an event that is not a resource-copy event the category tag is
    compared with rpk without regard to the case of ASCII letters.  A tag
    that equals rpk in that sense is handled exactly as the tag rpk is: same
    final database and, after the first log line, which quotes the tag as it
    came, the same trace.  Any other tag makes the handler return after that
    first log line: no file is read and the database is not touched. *)
Theorem category_filter_case_insensitive (type package_name : string)
    (event_type : package_manager_event_type_e)
    (event_state : package_manager_event_state_e) (progress error : Z) (db : DB) :
  event_type <> PACKAGE_MANAGER_EVENT_TYPE_RES_COPY ->
  let handle tag :=
    _pkg_mgr_event_cb tag package_name event_type event_state progress error db in
  let first_log := EvLog LOG_INFO (MsgEvent type package_name event_type event_state) in
  (ascii_ci_eq type "rpk" ->
   final_db (handle type) = final_db (handle "rpk")
   /\ trace_of (handle type) = first_log :: tl (trace_of (handle "rpk")))
  /\ (~ ascii_ci_eq type "rpk" -> handle type = (tt, db, [first_log])).
Proof.
  intros Hcopy handle first_log.
  assert (Hnc : is_res_copy event_type = false)
    by (destruct event_type; try reflexivity; contradiction).
  split.
  - intros Hci. apply g_ascii_strcasecmp_zero in Hci.
    subst handle. cbn beta. unfold _pkg_mgr_event_cb.
    rewrite !final_db_bind, !trace_of_bind.
    unfold ml_logi at 1 2 3 4 5 6. unfold emit.
    unfold final_db at 2 3 5 6. unfold trace_of at 1 3. cbn [fst snd].
    rewrite Hnc, Hci.
    change (g_ascii_strcasecmp "rpk" "rpk" =? 0) with true.
    cbn [Z.eqb negb app tl]. split; reflexivity.
  - intros Hci. subst handle. cbn beta. unfold _pkg_mgr_event_cb.
    unfold bind at 1. unfold ml_logi at 1. unfold emit at 1.
    rewrite Hnc.
    destruct (g_ascii_strcasecmp type "rpk" =? 0) eqn:E.
    + apply Z.eqb_eq, g_ascii_strcasecmp_zero in E. contradiction.
    + reflexivity.
Qed.

End EventHandler.

(** Package ghost on the device is one whose resource type cannot be
    queried. *)
Lemma lookup_failure_aborts_witness :
  let r := Device.handle "rpk" "ghost" PACKAGE_MANAGER_EVENT_TYPE_INSTALL
             PACKAGE_MANAGER_EVENT_STATE_COMPLETED Registry.empty in
  final_db r = Registry.empty
  /\ svcdb_calls (trace_of r) = []
  /\ Forall (fun e => is_file_access e = false /\ is_svcdb e = false) (trace_of r).
Proof.
  apply (@lookup_failure_aborts _ Registry.service_db Device.platform
           "rpk" "ghost" 100 0 Registry.empty).
  right. left. simpl. discriminate.
Defined.

(** Package app1 is being uninstalled. *)
Lemma uninstall_update_observe_only_witness :
  let r := Device.handle "rpk" "app1" PACKAGE_MANAGER_EVENT_TYPE_UNINSTALL
             PACKAGE_MANAGER_EVENT_STATE_STARTED Registry.empty in
  final_db r = Registry.empty
  /\ svcdb_calls (trace_of r) = []
  /\ Forall (fun e => is_observation (pkg_path_of "app1") e = true) (trace_of r).
Proof.
  apply (@uninstall_update_observe_only _ Registry.service_db Device.platform
           "rpk" "app1" PACKAGE_MANAGER_EVENT_TYPE_UNINSTALL
           PACKAGE_MANAGER_EVENT_STATE_STARTED 100 0 Registry.empty).
  left. split; reflexivity.
Defined.

(** The tags RPK and tpk on an install of package app1. *)
Lemma category_filter_case_insensitive_witness :
  let handle tag :=
    Device.handle tag "app1" PACKAGE_MANAGER_EVENT_TYPE_INSTALL
      PACKAGE_MANAGER_EVENT_STATE_COMPLETED Registry.empty in
  (final_db (handle "RPK") = final_db (handle "rpk")
   /\ trace_of (handle "RPK")
      = EvLog LOG_INFO (MsgEvent "RPK" "app1" PACKAGE_MANAGER_EVENT_TYPE_INSTALL
                          PACKAGE_MANAGER_EVENT_STATE_COMPLETED)
        :: tl (trace_of (handle "rpk")))
  /\ handle "tpk"
     = (tt, Registry.empty,
        [EvLog LOG_INFO (MsgEvent "tpk" "app1" PACKAGE_MANAGER_EVENT_TYPE_INSTALL
                           PACKAGE_MANAGER_EVENT_STATE_COMPLETED)]).
Proof.
  assert (Hinstall : PACKAGE_MANAGER_EVENT_TYPE_INSTALL
                     <> PACKAGE_MANAGER_EVENT_TYPE_RES_COPY) by discriminate.
  split.
  - apply (proj1 (@category_filter_case_insensitive _ Registry.service_db
                    Device.platform "RPK" "app1" _ _ 100 0 Registry.empty Hinstall)).
    reflexivity.
  - apply (proj2 (@category_filter_case_insensitive _ Registry.service_db
                    Device.platform "tpk" "app1" _ _ 100 0 Registry.empty Hinstall)).
    unfold ascii_ci_eq. simpl. discriminate.
Defined.

(* ------------------------------------------------------------------ *)
(** ** The descriptor locator *)

Section Locator.

Context {DB : Type} {R : ServiceDb DB} {P : Platform}.

(** The descriptor of each kind is the fixed file name of the kind joined
    under the root directory. *)
Lemma descriptor_file_names (json_path : string) :
  json_file_of json_path MLSVC_JSON_MODEL
  = Some (g_build_filename json_path "model_description.json")
  /\ json_file_of json_path MLSVC_JSON_PIPELINE
     = Some (g_build_filename json_path "pipeline_description.json")
  /\ json_file_of json_path MLSVC_JSON_RESOURCE
     = Some (g_build_filename json_path "resource_description.json").
Proof. repeat split. Qed.

(** With the bits EXISTS and IS_REGULAR both set, [g_file_test] is the test
    of existence: what kind of file the path is plays no part. *)
Lemma descriptor_test_is_existence (filename : string) :
  g_file_test filename descriptor_test
  = match fs_stat filename with Some _ => true | None => false end.
Proof. unfold g_file_test. destruct (fs_stat filename); reflexivity. Qed.

(** A descriptor that does not exist: a warning, and nothing else. *)
Lemma missing_descriptor_is_skipped (json_path : string)
    (kind : mlsvc_json_type_e) (app_info : option string) (json_file : string)
    (db : DB) :
  json_file_of json_path kind = Some json_file ->
  fs_stat json_file = None ->
  _parse_json json_path kind app_info db
  = (tt, db,
     [EvFileTest json_file descriptor_test;
      EvLog LOG_WARN (MsgJsonFileNotFound json_file)]).
Proof.
  intros Hfile Hstat. unfold _parse_json. rewrite Hfile.
  unfold bind, file_test. fold descriptor_test.
  rewrite descriptor_test_is_existence, Hstat. reflexivity.
Qed.

(** A descriptor path that exists is handed to the JSON loader, regular file
    or not; when the loader fails, that is logged as an error. *)
Lemma existing_descriptor_is_loaded (json_path : string)
    (kind : mlsvc_json_type_e) (app_info : option string) (json_file : string)
    (a : file_attr) (message : string) (db : DB) :
  json_file_of json_path kind = Some json_file ->
  fs_stat json_file = Some a ->
  json_parser_load_from_file json_file = JsonLoadError message ->
  _parse_json json_path kind app_info db
  = (tt, db,
     [EvFileTest json_file descriptor_test; EvJsonLoad json_file;
      EvLog LOG_ERROR (MsgJsonParseFailed json_file message)]).
Proof.
  intros Hfile Hstat Hload. unfold _parse_json. rewrite Hfile.
  unfold bind, file_test, parser_load. fold descriptor_test.
  rewrite descriptor_test_is_existence, Hstat, Hload. reflexivity.
Qed.

(** The handler's loop over the kinds runs the three descriptors one after
    the other, whatever each of them did. *)
Lemma kinds_run_in_turn (json_path : string) (app_info : option string) (db : DB) :
  for_loop (Z.to_nat (mlsvc_json_type_value MLSVC_JSON_MAX)) 0
    (fun t => _parse_json json_path (mlsvc_json_type_of_nat t) app_info) db
  = (_parse_json json_path MLSVC_JSON_MODEL app_info ;;
     _parse_json json_path MLSVC_JSON_PIPELINE app_info ;;
     _parse_json json_path MLSVC_JSON_RESOURCE app_info ;;
     ret tt) db.
Proof. reflexivity. Qed.

End Locator.

(** C6.  Package app3 on the device has a directory where its model
    descriptor should be.  The path exists, so the test with EXISTS and
    IS_REGULAR passes although the path is no regular file; the directory is
    handed to the JSON loader and the failure of the loader is logged as an
    error, where a descriptor that is not a regular file should be passed
    over with the warning of a missing descriptor. *)
Theorem descriptor_directory_not_skipped :
  let json_file := (Device.root_of "app3" ++ "/model_description.json")%string in
  option_map st_regular (@fs_stat Device.platform json_file) = Some false
  /\ @g_file_test Device.platform json_file descriptor_test = true
  /\ Device.parse (Device.root_of "app3") MLSVC_JSON_MODEL (Some "info")
       Registry.empty
     = (tt, Registry.empty,
        [EvFileTest json_file descriptor_test; EvJsonLoad json_file;
         EvLog LOG_ERROR (MsgJsonParseFailed json_file "Is a directory")]).
Proof. repeat split. Qed.

(** The pipeline descriptor of the same package is still registered. *)
Example other_kinds_still_registered :
  svcdb_calls
    (trace_of (Device.handle "rpk" "app3" PACKAGE_MANAGER_EVENT_TYPE_INSTALL
                 PACKAGE_MANAGER_EVENT_STATE_COMPLETED Registry.empty))
  = [CallPipelineSet "p1" "videotestsrc ! fakesink"].
Proof. reflexivity. Qed.

(* ------------------------------------------------------------------ *)
(** ** App-info round trip *)

(** Reading back one escaped byte. *)
Lemma read_escape_char (c : ascii) (k : string) :
  JsonText.read_string_body (JsonText.escape_char c k)
  = JsonText.prepend (Some c) (JsonText.read_string_body k).
Proof.
  destruct c as [[] [] [] [] [] [] [] []]; reflexivity.
Qed.

(** Reading back an escaped string up to its closing quote. *)
Lemma read_strescape (s k : string) :
  JsonText.read_string_body (JsonText.json_strescape s (String JsonText.dquote k))
  = Some (s, k).
Proof.
  induction s as [|c r IH]; [reflexivity|].
  cbn [JsonText.json_strescape]. rewrite read_escape_char, IH. reflexivity.
Qed.

Lemma read_dump_string (s k : string) :
  JsonText.read_string (JsonText.dump_string s k) = Some (s, k).
Proof.
  unfold JsonText.read_string, JsonText.dump_string.
  cbn [JsonText.skip_ws JsonText.is_space JsonText.expect].
  change (JsonText.is_space JsonText.dquote) with false. cbn iota.
  cbn [JsonText.expect]. rewrite Ascii.eqb_refl. apply read_strescape.
Qed.

Lemma read_string_skips (c : ascii) (s : string) :
  JsonText.is_space c = true ->
  JsonText.read_string (String c s) = JsonText.read_string s.
Proof.
  intros H. unfold JsonText.read_string. cbn [JsonText.skip_ws].
  rewrite H. reflexivity.
Qed.

(** Reading back the members of an object whose members are strings. *)
Lemma read_dump_members (k : string) (members : JsonObject) :
  string_members members ->
  members <> [] ->
  forall fuel : nat,
    (List.length members <= fuel)%nat ->
    JsonText.read_members fuel
      (String JsonText.newline
         (JsonText.dump_members JsonText.dump_node 0 members k))
    = Some (members, k).
Proof.
  induction 1 as [|[name value] rest [v Hv] Hrest IH]; intros Hne fuel Hfuel;
    [contradiction|].
  cbn [snd] in Hv. subst value.
  destruct fuel as [|fuel]; [cbn [List.length] in Hfuel; lia|].
  cbn [List.length] in Hfuel.
  cbn [JsonText.read_members JsonText.dump_members JsonText.spaces Nat.mul
       Nat.add JsonText.dump_node JsonText.dump_value].
  rewrite !read_string_skips by reflexivity.
  rewrite read_dump_string.
  cbn [JsonText.skip_ws JsonText.expect].
  change (JsonText.is_space " ") with true.
  change (JsonText.is_space ":") with false.
  cbn iota. cbn [JsonText.expect].
  change (Ascii.eqb ":" ":") with true. cbn iota.
  rewrite read_string_skips by reflexivity.
  rewrite read_dump_string.
  destruct rest as [|m rest].
  - reflexivity.
  - cbn [JsonText.skip_ws].
    change (JsonText.is_space ",") with false. cbn iota.
    change (Ascii.eqb "," ",") with true. cbn iota.
    rewrite IH by (cbn [List.length] in *; (discriminate || lia)).
    reflexivity.
Qed.

Lemma escape_char_length (c : ascii) (k : string) :
  (String.length k <= String.length (JsonText.escape_char c k))%nat.
Proof.
  destruct c as [[] [] [] [] [] [] [] []]; simpl; lia.
Qed.

Lemma strescape_length (s k : string) :
  (String.length k <= String.length (JsonText.json_strescape s k))%nat.
Proof.
  induction s as [|c r IH]; simpl; [lia|].
  etransitivity; [exact IH|apply escape_char_length].
Qed.

Lemma dump_string_length (s k : string) :
  (String.length k <= String.length (JsonText.dump_string s k))%nat.
Proof.
  unfold JsonText.dump_string. simpl.
  pose proof (strescape_length s (String JsonText.dquote k)) as H.
  simpl in H. lia.
Qed.

(** The text of the members is at least as long as there are members. *)
Lemma dump_members_length (k : string) (members : JsonObject) :
  string_members members ->
  (List.length members
   <= String.length (JsonText.dump_members JsonText.dump_node 0 members k))%nat.
Proof.
  induction 1 as [|[name value] rest [v Hv] Hrest IH]; [simpl; lia|].
  cbn [snd] in Hv. subst value.
  cbn [List.length JsonText.dump_members JsonText.spaces Nat.mul Nat.add
       JsonText.dump_node JsonText.dump_value String.length].
  match goal with
  | |- context [JsonText.dump_string name ?K] =>
      pose proof (dump_string_length name K) as H1
  end.
  cbn [String.length] in H1.
  match type of H1 with
  | context [JsonText.dump_string v ?K] =>
      pose proof (dump_string_length v K) as H2
  end.
  destruct rest as [|m rest]; cbn [String.length] in *; lia.
Qed.

(** The reader inverts the generator on objects whose members are
    strings. *)
Lemma json_text_round_trip (o : JsonObject) :
  string_members o ->
  JsonText.from_data (JsonText.to_data (JsonObjectNode o)) = Some (JsonObjectNode o).
Proof.
  intros Hs. destruct o as [|m rest]; [reflexivity|].
  pose proof (dump_members_length EmptyString Hs) as Hlen.
  assert (Hne : m :: rest <> []) by discriminate.
  pose proof (fun fuel => @read_dump_members EmptyString (m :: rest) Hs Hne fuel) as Hread.
  unfold JsonText.to_data, JsonText.from_data.
  cbn [JsonText.dump_node JsonText.skip_ws JsonText.expect].
  change (JsonText.is_space "{") with false. cbn iota. cbn [JsonText.expect].
  change (Ascii.eqb "{" "{") with true. cbn iota.
  rewrite Hread by (cbn [String.length]; lia).
  destruct m as [name value].
  cbn [JsonText.dump_members JsonText.spaces Nat.mul Nat.add JsonText.skip_ws
       JsonText.dump_string].
  change (JsonText.is_space JsonText.newline) with true.
  change (JsonText.is_space " ") with true.
  change (JsonText.is_space JsonText.dquote) with false.
  cbn iota.
  change (Ascii.eqb JsonText.dquote "}") with false. cbn iota.
  reflexivity.
Qed.

Section AppInfo.

Context {P : Platform}.

(** Whatever the generator writes, a parser that reads back the generator's
    text of an object with string members finds the package id, the resource
    type and the resource version in the app-info text composed from them. *)
Lemma app_info_fields_read_back (from_data : string -> option JsonNode) :
  (forall o : JsonObject,
     string_members o ->
     from_data (json_generator_to_data (JsonObjectNode o)) = Some (JsonObjectNode o)) ->
  forall package_name res_type res_version : string,
    let parsed := from_data (_get_app_info package_name res_type res_version) in
    record_field parsed "app_id" = Some package_name
    /\ record_field parsed "res_type" = Some res_type
    /\ record_field parsed "res_version" = Some res_version.
Proof.
  intros Hrt package_name res_type res_version parsed.
  subst parsed. unfold _get_app_info, app_info_root.
  rewrite Hrt.
  - repeat split.
  - repeat constructor; eexists; reflexivity.
Qed.

(** C8.  On a platform whose JSON generator writes the text [JsonText]
    describes, for every package id, resource type and resource version,
    whatever bytes they are made of: the app-info text composed from them,
    read back as JSON, is an object whose fields app_id, res_type and
    res_version are the package id, the resource type and the resource
    version. *)
Theorem app_info_round_trip :
  (forall node : JsonNode, json_generator_to_data node = JsonText.to_data node) ->
  forall package_name res_type res_version : string,
    let parsed :=
      JsonText.from_data (_get_app_info package_name res_type res_version) in
    record_field parsed "app_id" = Some package_name
    /\ record_field parsed "res_type" = Some res_type
    /\ record_field parsed "res_version" = Some res_version.
Proof.
  intros Hgen. apply app_info_fields_read_back.
  intros o Ho. rewrite Hgen. apply json_text_round_trip. exact Ho.
Qed.

End AppInfo.

(** The app-info of the specification on the device: package pkgA, resource
    type rpk, version 1.0. *)
Lemma app_info_round_trip_witness :
  let parsed :=
    JsonText.from_data (@_get_app_info Device.platform "pkgA" "rpk" "1.0") in
  record_field parsed "app_id" = Some "pkgA"
  /\ record_field parsed "res_type" = Some "rpk"
  /\ record_field parsed "res_version" = Some "1.0".
Proof.
  exact (@app_info_round_trip Device.platform (fun node => eq_refl)
           "pkgA" "rpk" "1.0").
Defined.

(** Strings that need escaping come back as they went in. *)
Example app_info_round_trip_escapes :
  let quoted := String JsonText.dquote (String JsonText.backslash "pkg") in
  let parsed :=
    JsonText.from_data
      (@_get_app_info Device.platform quoted (String JsonText.newline "rpk")
         (String "031" (String "127" "1.0"))) in
  record_field parsed "app_id" = Some quoted
  /\ record_field parsed "res_type" = Some (String JsonText.newline "rpk")
  /\ record_field parsed "res_version" = Some (String "031" (String "127" "1.0")).
Proof. repeat split. Qed.

(* ------------------------------------------------------------------ *)
(** ** The scenario of the specification *)

(** Package app1 of category rpk is installed; the lookup gives type rpk and
    version 2; the model descriptor is the one object m1.  The one model call
    is the add of m1, active, with an empty description and the app-info of
    the event, and the registry hands out version 1. *)
Example install_app1_registers_m1 :
  let r := Device.handle "rpk" "app1" PACKAGE_MANAGER_EVENT_TYPE_INSTALL
             PACKAGE_MANAGER_EVENT_STATE_COMPLETED Registry.empty in
  let app_info := @_get_app_info Device.platform "app1" "rpk" "2" in
  svcdb_calls (trace_of r)
  = [CallModelAdd "m1" "m1.tflite" true EmptyString app_info;
     CallResourceDelete "r1";
     CallResourceAdd "r1" "r1.dat" EmptyString app_info;
     CallResourceAdd "r3" "r3.dat" "third" app_info]
  /\ In (EvLog LOG_INFO (MsgModelRegistered "m1" 1)) (trace_of r)
  /\ map Registry.model_version (Registry.models (final_db r)) = [1].
Proof.
  split; [reflexivity|split; [|reflexivity]].
  vm_compute. tauto.
Qed.

(* ================================================================== *)
(** * Further properties of pkg-mgr.cc *)

(** ** A descriptor in full *)

Lemma replay_app {DB : Type} {R : ServiceDb DB} (l1 l2 : list svcdb_call) (db : DB) :
  replay (l1 ++ l2) db = replay l2 (replay l1 db).
Proof. unfold replay. apply fold_left_app. Qed.

Lemma file_accesses_app (t1 t2 : list event) :
  file_accesses (t1 ++ t2) = file_accesses t1 ++ file_accesses t2.
Proof. apply filter_app. Qed.

Section DescriptorInFull.

Context {DB : Type} {R : ServiceDb DB} {P : Platform}.

(** One pass through the loop body leaves the database its record's calls
    lead to, and touches no file. *)
Lemma parse_json_body_effect (json_file : string) (kind : mlsvc_json_type_e)
    (app_info : option string) (array : option JsonArray) (root : option JsonNode)
    (i : nat) (db : DB) :
  final_db (_parse_json_body json_file kind app_info array root i db)
  = replay (record_calls kind app_info (record_at array root i)) db
  /\ file_accesses (trace_of (_parse_json_body json_file kind app_info array root i db))
     = [].
Proof.
  unfold record_calls, well_formed, clearing_of, registration_of, has_field,
    record_field, record_at, _parse_json_body, json_array_get_object_element.
  set (object := json_node_get_object
                   match array with Some a => nth_error a i | None => root end).
  replace (match array with
           | Some a => json_node_get_object (nth_error a i)
           | None => json_node_get_object root
           end) with object by (subst object; destruct array; reflexivity).
  destruct kind; simpl; try (split; reflexivity).
  - destruct (json_object_get_string_member object "name") as [name|];
      [|split; reflexivity].
    destruct (json_object_get_string_member object "model") as [model|];
      [|split; reflexivity].
    simpl.
    destruct (flag_is_true (json_object_get_string_member object "clear"));
      unfold bind, svcdb, ret, ml_logi, ml_loge, emit, trace_of, final_db, replay;
      simpl; step_db_ops; split; reflexivity.
  - destruct (json_object_get_string_member object "name") as [name|];
      [|split; reflexivity].
    destruct (json_object_get_string_member object "description") as [desc|];
      [|split; reflexivity].
    simpl.
    destruct (flag_is_true (json_object_get_string_member object "clear"));
      unfold bind, svcdb, ret, ml_logi, ml_loge, emit, trace_of, final_db, replay;
      simpl; step_db_ops; split; reflexivity.
  - destruct (json_object_get_string_member object "name") as [name|];
      [|split; reflexivity].
    destruct (json_object_get_string_member object "path") as [path|];
      [|split; reflexivity].
    simpl.
    destruct (flag_is_true (json_object_get_string_member object "clear"));
      unfold bind, svcdb, ret, ml_logi, ml_loge, emit, trace_of, final_db, replay;
      simpl; step_db_ops; split; reflexivity.
Qed.

Lemma for_loop_body_effect (json_file : string) (kind : mlsvc_json_type_e)
    (app_info : option string) (array : option JsonArray) (root : option JsonNode)
    (n : nat) :
  forall (i : nat) (db : DB),
    final_db (for_loop n i (_parse_json_body json_file kind app_info array root) db)
    = replay (flat_map (record_calls kind app_info)
                (map (record_at array root) (seq i n))) db
    /\ file_accesses
         (trace_of (for_loop n i (_parse_json_body json_file kind app_info array root) db))
       = [].
Proof.
  induction n as [|n IH]; intros i db; [split; reflexivity|].
  cbn [for_loop seq map flat_map].
  rewrite final_db_bind, trace_of_bind, file_accesses_app, replay_app.
  destruct (parse_json_body_effect json_file kind app_info array root i db)
    as [Hdb Hquiet].
  rewrite Hdb, Hquiet.
  destruct (IH (S i) (replay (record_calls kind app_info (record_at array root i)) db))
    as [Hdb' Hquiet'].
  rewrite Hdb', Hquiet'. split; reflexivity.
Qed.

Lemma root_loop_effect (json_file : string) (kind : mlsvc_json_type_e)
    (app_info : option string) (root : option JsonNode) (db : DB) :
  final_db (root_loop json_file kind app_info root db)
  = replay (flat_map (record_calls kind app_info) (records_of_root root)) db
  /\ file_accesses (trace_of (root_loop json_file kind app_info root db)) = [].
Proof.
  unfold root_loop.
  destruct root as [[o|a|v|]|]; cbn [json_node_get_array];
    match goal with
    | |- context [for_loop ?n ?i (_parse_json_body ?f ?k ?ai ?arr ?r) db] =>
        destruct (for_loop_body_effect f k ai arr r n i db) as [Hdb Hquiet]
    end; rewrite Hdb, Hquiet; try (split; reflexivity).
  unfold json_array_get_length. rewrite records_of_array. split; reflexivity.
Qed.

(** What [_parse_json] does in each of its cases. *)
Lemma parse_json_cases (json_path : string) (kind : mlsvc_json_type_e)
    (app_info : option string) (db : DB) :
  svcdb_calls (trace_of (_parse_json json_path kind app_info db))
  = descriptor_calls json_path kind app_info
  /\ final_db (_parse_json json_path kind app_info db)
     = replay (descriptor_calls json_path kind app_info) db
  /\ file_accesses (trace_of (_parse_json json_path kind app_info db))
     = descriptor_accesses json_path kind.
Proof.
  unfold descriptor_calls, descriptor_accesses.
  destruct (json_file_of json_path kind) as [json_file|] eqn:Hfile.
  - destruct (g_file_test json_file descriptor_test) eqn:Hfound.
    + destruct (json_parser_load_from_file json_file) as [message|root] eqn:Hload.
      * unfold _parse_json. rewrite Hfile.
        unfold bind, file_test, parser_load. fold descriptor_test.
        rewrite Hfound, Hload. repeat split.
      * rewrite (parse_json_loaded _ _ _ db Hfile Hfound Hload).
        destruct (root_loop_effect json_file kind app_info root db) as [Hdb Hquiet].
        split; [|split].
        -- unfold trace_of at 1. cbn [snd app svcdb_calls]. apply root_loop_calls.
        -- unfold final_db at 1. cbn [fst snd]. exact Hdb.
        -- unfold trace_of at 1. cbn [snd].
           rewrite file_accesses_app, Hquiet. reflexivity.
    + unfold _parse_json. rewrite Hfile.
      unfold bind, file_test. fold descriptor_test. rewrite Hfound.
      repeat split.
  - unfold _parse_json. rewrite Hfile. repeat split.
Qed.

End DescriptorInFull.

(** ** An event in full *)

Section EventInFull.

Context {DB : Type} {R : ServiceDb DB} {P : Platform}.

Lemma summary_log_then (level : log_level) (msg : log_msg) (k : M DB unit) (db : DB) :
  summary (bind (emit (EvLog level msg)) (fun _ => k) db) = summary (k db).
Proof.
  unfold summary, bind, emit, trace_of, final_db.
  destruct (k db) as [[u db'] t]. reflexivity.
Qed.

Lemma summary_then (m k : M DB unit) (db : DB) :
  summary (bind m (fun _ => k) db)
  = (fst (fst (summary (m db)))
     ++ fst (fst (summary (k (snd (fst (summary (m db))))))),
     snd (fst (summary (k (snd (fst (summary (m db))))))),
     snd (summary (m db)) ++ snd (summary (k (snd (fst (summary (m db))))))).
Proof.
  unfold summary. cbn [fst snd].
  rewrite final_db_bind, trace_of_bind, svcdb_calls_app, file_accesses_app.
  destruct (m db) as [[[] db'] t]. reflexivity.
Qed.

Lemma summary_parse_json (json_path : string) (kind : mlsvc_json_type_e)
    (app_info : option string) (db : DB) :
  summary (_parse_json json_path kind app_info db)
  = (descriptor_calls json_path kind app_info,
     replay (descriptor_calls json_path kind app_info) db,
     descriptor_accesses json_path kind).
Proof.
  unfold summary.
  destruct (parse_json_cases json_path kind app_info db) as (-> & -> & ->).
  reflexivity.
Qed.

(** The loop over the kinds: the three descriptors in turn. *)
Lemma summary_kinds_loop (json_path : string) (app_info : option string) (db : DB) :
  summary
    (for_loop (Z.to_nat (mlsvc_json_type_value MLSVC_JSON_MAX)) 0
       (fun t => _parse_json json_path (mlsvc_json_type_of_nat t) app_info) db)
  = (flat_map (fun kind => descriptor_calls json_path kind app_info) all_kinds,
     replay (flat_map (fun kind => descriptor_calls json_path kind app_info) all_kinds) db,
     flat_map (descriptor_accesses json_path) all_kinds).
Proof.
  rewrite kinds_run_in_turn.
  rewrite summary_then, summary_parse_json. cbn [fst snd].
  rewrite summary_then, summary_parse_json. cbn [fst snd].
  rewrite summary_then, summary_parse_json. cbn [fst snd].
  unfold all_kinds. cbn [flat_map]. rewrite !replay_app.
  unfold summary, ret, trace_of, final_db.
  cbn [fst snd svcdb_calls file_accesses filter replay fold_left].
  rewrite !app_nil_r. reflexivity.
Qed.

Lemma summary_destroy_pkg_info (pkg_info : package_info_h) (db : DB) :
  summary (destroy_pkg_info pkg_info db) = ([], db, []).
Proof.
  unfold destroy_pkg_info.
  destruct (negb (package_info_destroy pkg_info =? PACKAGE_MANAGER_ERROR_NONE));
    reflexivity.
Qed.

Lemma summary_echo (pkg_path : string) (db : DB) :
  summary (_pkg_mgr_echo_pkg_path_info pkg_path db)
  = ([], db, listing_accesses pkg_path).
Proof.
  unfold _pkg_mgr_echo_pkg_path_info, listing_accesses, bind, file_test,
    dir_open, ml_logi, emit.
  destruct (g_file_test pkg_path G_FILE_TEST_IS_DIR); [|reflexivity].
  destruct (g_dir_open pkg_path) as [names|]; cbn beta iota; [|reflexivity].
  rewrite log_file_names_run. unfold summary, trace_of, final_db. cbn [fst snd app].
  cbn [svcdb_calls file_accesses filter is_file_access].
  assert (Hlogs : forall l : list string,
            svcdb_calls (map (fun n => EvLog LOG_INFO (MsgFile n)) l) = []
            /\ filter is_file_access (map (fun n => EvLog LOG_INFO (MsgFile n)) l) = []).
  { induction l as [|n l [IH1 IH2]]; split; simpl; auto. }
  destruct (Hlogs names) as [-> ->]. reflexivity.
Qed.

(** What the handler does for any event, as calls, database and file
    accesses. *)
Lemma summary_event_cb (type package_name : string)
    (event_type : package_manager_event_type_e)
    (event_state : package_manager_event_state_e) (progress error : Z) (db : DB) :
  summary (_pkg_mgr_event_cb type package_name event_type event_state
             progress error db)
  = (event_calls type package_name event_type event_state,
     replay (event_calls type package_name event_type event_state) db,
     event_accesses type package_name event_type event_state).
Proof.
  unfold _pkg_mgr_event_cb, ml_logi at 1. rewrite summary_log_then.
  unfold event_calls, event_accesses.
  destruct (is_res_copy event_type) eqn:Hcopy.
  - destruct event_type; try discriminate. reflexivity.
  - cbn [orb].
    destruct (g_ascii_strcasecmp type "rpk" =? 0) eqn:Htag; cbn [negb andb].
    + destruct event_type, event_state; cbn [is_install_completed is_listing andb];
        try reflexivity.
      * unfold lookup_resource_info.
        destruct (package_info_create package_name) as [ret1 pkg_info].
        cbn [fst snd].
        destruct (ret1 =? PACKAGE_MANAGER_ERROR_NONE); cbn [negb]; [|reflexivity].
        destruct (package_info_get_res_type pkg_info) as [ret2 res_type].
        cbn [fst snd].
        destruct (ret2 =? PACKAGE_MANAGER_ERROR_NONE); cbn [negb].
        -- destruct (package_info_get_res_version pkg_info) as [ret3 res_version].
           cbn [fst snd].
           destruct (ret3 =? PACKAGE_MANAGER_ERROR_NONE); cbn [negb].
           ++ unfold ml_logi. rewrite summary_log_then.
              rewrite summary_then, summary_destroy_pkg_info. cbn [fst snd app].
              rewrite summary_kinds_loop. reflexivity.
           ++ unfold ml_loge. rewrite summary_log_then.
              apply summary_destroy_pkg_info.
        -- unfold ml_loge. rewrite summary_log_then.
           apply summary_destroy_pkg_info.
      * unfold ml_logi. rewrite summary_log_then. apply summary_echo.
      * unfold ml_logi. rewrite summary_log_then. apply summary_echo.
    + rewrite andb_false_r. reflexivity.
Qed.

End EventInFull.

(* ------------------------------------------------------------------ *)
(** ** Lists of calls *)

Lemma deletes_precede_adds_app (l1 l2 : list svcdb_call) :
  deletes_precede_adds l1 = true ->
  deletes_precede_adds l2 = true ->
  deletes_precede_adds (l1 ++ l2) = true.
Proof.
  intros H1 H2. induction l1 as [|c l1 IH]; [exact H2|].
  destruct c; cbn [app deletes_precede_adds] in *;
    try (apply IH; exact H1).
  - destruct l1 as [|c' l1']; [discriminate|].
    destruct c'; try discriminate. cbn [app].
    apply andb_true_iff in H1. destruct H1 as [Hc Hrest].
    rewrite Hc. apply IH. exact Hrest.
  - destruct l1 as [|c' l1']; [discriminate|].
    destruct c'; try discriminate. cbn [app].
    apply andb_true_iff in H1. destruct H1 as [Hc Hrest].
    rewrite Hc. apply IH. exact Hrest.
Qed.

Lemma deletes_precede_adds_flat_map {A : Type} (f : A -> list svcdb_call)
    (l : list A) :
  (forall a, deletes_precede_adds (f a) = true) ->
  deletes_precede_adds (flat_map f l) = true.
Proof.
  intros Hf. induction l as [|a l IH]; [reflexivity|].
  cbn [flat_map]. apply deletes_precede_adds_app; auto.
Qed.

Lemma record_calls_guarded (kind : mlsvc_json_type_e) (app_info : option string)
    (record : option JsonNode) :
  deletes_precede_adds (record_calls kind app_info record) = true.
Proof.
  unfold record_calls, clearing_of, registration_of.
  destruct (well_formed kind record) eqn:Hwf; [|reflexivity].
  destruct (flag_is_true (record_field record "clear"));
    destruct kind; try discriminate; cbn [app deletes_precede_adds];
    rewrite ?String.eqb_refl; reflexivity.
Qed.

Lemma record_calls_kind (kind : mlsvc_json_type_e) (app_info : option string)
    (record : option JsonNode) :
  Forall (fun c => call_kind c = kind) (record_calls kind app_info record).
Proof.
  unfold record_calls, clearing_of, registration_of.
  destruct (well_formed kind record) eqn:Hwf; [|constructor].
  destruct (flag_is_true (record_field record "clear"));
    destruct kind; try discriminate; repeat constructor.
Qed.

Lemma record_calls_app_info (kind : mlsvc_json_type_e) (app_info : string)
    (record : option JsonNode) :
  Forall (fun c => call_app_info c = None \/ call_app_info c = Some app_info)
    (record_calls kind (Some app_info) record).
Proof.
  unfold record_calls, clearing_of, registration_of.
  destruct (well_formed kind record) eqn:Hwf; [|constructor].
  destruct (flag_is_true (record_field record "clear"));
    destruct kind; try discriminate;
    repeat (apply Forall_cons || apply Forall_nil); simpl; auto.
Qed.

Lemma Forall_flat_map_intro {A B : Type} (Q : B -> Prop) (f : A -> list B)
    (l : list A) :
  (forall a, Forall Q (f a)) -> Forall Q (flat_map f l).
Proof.
  intros Hf. induction l as [|a l IH]; [constructor|].
  cbn [flat_map]. apply Forall_app. split; auto.
Qed.

Section DescriptorCalls.

Context {P : Platform}.

Lemma descriptor_calls_guarded (json_path : string) (kind : mlsvc_json_type_e)
    (app_info : option string) :
  deletes_precede_adds (descriptor_calls json_path kind app_info) = true.
Proof.
  unfold descriptor_calls.
  destruct (json_file_of json_path kind); [|reflexivity].
  destruct (g_file_test _ _); [|reflexivity].
  destruct (json_parser_load_from_file _); [reflexivity|].
  apply deletes_precede_adds_flat_map. intros r. apply record_calls_guarded.
Qed.

Lemma descriptor_calls_kind (json_path : string) (kind : mlsvc_json_type_e)
    (app_info : option string) :
  Forall (fun c => call_kind c = kind) (descriptor_calls json_path kind app_info).
Proof.
  unfold descriptor_calls.
  destruct (json_file_of json_path kind); [|constructor].
  destruct (g_file_test _ _); [|constructor].
  destruct (json_parser_load_from_file _); [constructor|].
  apply Forall_flat_map_intro. intros r. apply record_calls_kind.
Qed.

Lemma descriptor_calls_app_info (json_path : string) (kind : mlsvc_json_type_e)
    (app_info : string) :
  Forall (fun c => call_app_info c = None \/ call_app_info c = Some app_info)
    (descriptor_calls json_path kind (Some app_info)).
Proof.
  unfold descriptor_calls.
  destruct (json_file_of json_path kind); [|constructor].
  destruct (g_file_test _ _); [|constructor].
  destruct (json_parser_load_from_file _); [constructor|].
  apply Forall_flat_map_intro. intros r. apply record_calls_app_info.
Qed.

End DescriptorCalls.

(* ------------------------------------------------------------------ *)
(** ** Descriptors: outcomes *)

Section DescriptorOutcomes.

Context {DB : Type} {R : ServiceDb DB} {P : Platform}.

(** X1.  Whatever the directory, the kind, the app-info and the database:
    the database calls of [_parse_json] are those of the records of the
    descriptor, in their order, and none at all when the kind is outside the
    three kinds, when the file is not found or when it does not load; the
    database left is the one these calls lead to one after the other; and
    the only files touched are the descriptor, tested once and loaded once
    if the test passed. *)
Theorem descriptor_outcome (json_path : string) (kind : mlsvc_json_type_e)
    (app_info : option string) (db : DB) :
  svcdb_calls (trace_of (_parse_json json_path kind app_info db))
  = descriptor_calls json_path kind app_info
  /\ final_db (_parse_json json_path kind app_info db)
     = replay (descriptor_calls json_path kind app_info) db
  /\ file_accesses (trace_of (_parse_json json_path kind app_info db))
     = descriptor_accesses json_path kind.
Proof. apply parse_json_cases. Qed.

(** X2.  A descriptor file that does not exist: [_parse_json] tests the
    file, logs the warning that it was not found and returns; nothing is
    loaded and the database is as it was. *)
Theorem missing_descriptor_warns_only (json_path : string)
    (kind : mlsvc_json_type_e) (app_info : option string) (json_file : string)
    (db : DB) :
  json_file_of json_path kind = Some json_file ->
  fs_stat json_file = None ->
  _parse_json json_path kind app_info db
  = (tt, db,
     [EvFileTest json_file descriptor_test;
      EvLog LOG_WARN (MsgJsonFileNotFound json_file)]).
Proof. apply missing_descriptor_is_skipped. Qed.

(** X3.  A descriptor file that is found but does not load as JSON:
    [_parse_json] logs the error with the message of the loader and returns;
    no database call is made and the database is as it was. *)
Theorem unloadable_descriptor_logs_error (json_path : string)
    (kind : mlsvc_json_type_e) (app_info : option string) (json_file : string)
    (message : string) (db : DB) :
  json_file_of json_path kind = Some json_file ->
  g_file_test json_file descriptor_test = true ->
  json_parser_load_from_file json_file = JsonLoadError message ->
  _parse_json json_path kind app_info db
  = (tt, db,
     [EvFileTest json_file descriptor_test; EvJsonLoad json_file;
      EvLog LOG_ERROR (MsgJsonParseFailed json_file message)]).
Proof.
  intros Hfile Hfound Hload. unfold _parse_json. rewrite Hfile.
  unfold bind, file_test, parser_load. fold descriptor_test.
  rewrite Hfound, Hload. reflexivity.
Qed.

(** X4.  A descriptor whose root is the empty array: the loop does not run;
    nothing is registered, nothing is logged and the database is as it
    was. *)
Theorem empty_array_registers_nothing (json_path : string)
    (kind : mlsvc_json_type_e) (app_info : option string) (json_file : string)
    (db : DB) :
  json_file_of json_path kind = Some json_file ->
  g_file_test json_file descriptor_test = true ->
  json_parser_load_from_file json_file = JsonLoadRoot (Some (JsonArrayNode [])) ->
  _parse_json json_path kind app_info db
  = (tt, db, [EvFileTest json_file descriptor_test; EvJsonLoad json_file]).
Proof.
  intros Hfile Hfound Hload.
  rewrite (parse_json_loaded _ _ _ db Hfile Hfound Hload). reflexivity.
Qed.

(** X5.  The calls of a descriptor are calls of its kind: a model descriptor
    leads to model deletes and model adds only, a pipeline descriptor to
    pipeline sets only (it never deletes), a resource descriptor to resource
    deletes and resource adds only. *)
Theorem descriptor_calls_stay_in_kind (json_path : string)
    (kind : mlsvc_json_type_e) (app_info : option string) (db : DB) :
  Forall (fun c => call_kind c = kind)
    (svcdb_calls (trace_of (_parse_json json_path kind app_info db))).
Proof.
  destruct (parse_json_cases json_path kind app_info db) as [-> _].
  apply descriptor_calls_kind.
Qed.

Lemma non_object_malformed (kind : mlsvc_json_type_e) (record : option JsonNode) :
  json_node_get_object record = None -> malformed kind record = true.
Proof.
  intros Hobj. unfold malformed, well_formed, has_field, record_field.
  rewrite Hobj. destruct kind; reflexivity.
Qed.

Lemma non_object_records (kind : mlsvc_json_type_e) (app_info : option string)
    (elements : list JsonNode) :
  Forall (fun e => json_node_get_object (Some e) = None) elements ->
  flat_map (record_calls kind app_info) (map Some elements) = []
  /\ List.length (filter (malformed kind) (map Some elements))
     = List.length elements.
Proof.
  induction 1 as [|e l He _ [IH1 IH2]]; [split; reflexivity|].
  pose proof (non_object_malformed kind (Some e) He) as Hm.
  cbn [map flat_map filter]. rewrite IH1, Hm. cbn [List.length]. rewrite IH2.
  unfold record_calls. unfold malformed in Hm. apply negb_true_iff in Hm.
  rewrite Hm. split; reflexivity.
Qed.

(** X6.  A descriptor whose root is an array none of whose elements is an
    object (strings, numbers, null, nested arrays): every element is skipped
    with the error of the kind, one error for each, no database call is
    made and the database is as it was. *)
Theorem non_object_elements_are_skipped (json_path : string)
    (kind : mlsvc_json_type_e) (app_info : option string) (json_file : string)
    (elements : list JsonNode) (db : DB) :
  json_file_of json_path kind = Some json_file ->
  g_file_test json_file descriptor_test = true ->
  json_parser_load_from_file json_file
  = JsonLoadRoot (Some (JsonArrayNode elements)) ->
  Forall (fun e => json_node_get_object (Some e) = None) elements ->
  let r := _parse_json json_path kind app_info db in
  svcdb_calls (trace_of r) = []
  /\ final_db r = db
  /\ List.length (skip_logs (trace_of r)) = List.length elements.
Proof.
  intros Hfile Hfound Hload Hnone r.
  destruct (non_object_records kind app_info Hnone) as [Hnocall Hall].
  assert (Hcalls : descriptor_calls json_path kind app_info = []).
  { unfold descriptor_calls. rewrite Hfile, Hfound, Hload. exact Hnocall. }
  destruct (parse_json_cases json_path kind app_info db) as (Hc & Hdb & _).
  subst r. rewrite Hc, Hdb, Hcalls. split; [reflexivity|split; [reflexivity|]].
  rewrite (parse_json_loaded _ _ _ db Hfile Hfound Hload).
  unfold trace_of at 1. cbn [snd app skip_logs filter is_skip_log].
  fold (skip_logs (trace_of (root_loop json_file kind app_info
                               (Some (JsonArrayNode elements)) db))).
  rewrite root_loop_skips by exact (json_file_of_kind _ _ Hfile).
  exact Hall.
Qed.

End DescriptorOutcomes.

(** Package app1 on the first device ships no pipeline descriptor. *)
Lemma missing_descriptor_warns_only_witness :
  let json_file := (Device.root_of "app1" ++ "/pipeline_description.json")%string in
  Device.parse (Device.root_of "app1") MLSVC_JSON_PIPELINE (Some "info")
    Registry.empty
  = (tt, Registry.empty,
     [EvFileTest json_file descriptor_test;
      EvLog LOG_WARN (MsgJsonFileNotFound json_file)]).
Proof.
  exact (@missing_descriptor_warns_only _ Registry.service_db Device.platform
           (Device.root_of "app1") MLSVC_JSON_PIPELINE (Some "info")
           (Device.root_of "app1" ++ "/pipeline_description.json")%string
           Registry.empty eq_refl eq_refl).
Defined.

(** The pipeline descriptor of package edge1 is a regular file that is not
    JSON. *)
Lemma unloadable_descriptor_logs_error_witness :
  let json_file := (Device.root_of "edge1" ++ "/pipeline_description.json")%string in
  Corner.parse (Device.root_of "edge1") MLSVC_JSON_PIPELINE (Some "info")
    Registry.empty
  = (tt, Registry.empty,
     [EvFileTest json_file descriptor_test; EvJsonLoad json_file;
      EvLog LOG_ERROR (MsgJsonParseFailed json_file "unexpected character")]).
Proof.
  exact (@unloadable_descriptor_logs_error _ Registry.service_db Corner.platform
           (Device.root_of "edge1") MLSVC_JSON_PIPELINE (Some "info")
           (Device.root_of "edge1" ++ "/pipeline_description.json")%string
           "unexpected character" Registry.empty eq_refl eq_refl eq_refl).
Defined.

(** The model descriptor of package edge1 is the empty array. *)
Lemma empty_array_registers_nothing_witness :
  let json_file := (Device.root_of "edge1" ++ "/model_description.json")%string in
  Corner.parse (Device.root_of "edge1") MLSVC_JSON_MODEL (Some "info")
    Registry.empty
  = (tt, Registry.empty,
     [EvFileTest json_file descriptor_test; EvJsonLoad json_file]).
Proof.
  exact (@empty_array_registers_nothing _ Registry.service_db Corner.platform
           (Device.root_of "edge1") MLSVC_JSON_MODEL (Some "info")
           (Device.root_of "edge1" ++ "/model_description.json")%string
           Registry.empty eq_refl eq_refl eq_refl).
Defined.

(** The resource descriptor of package edge1 holds a string, a null, a
    number and a nested array. *)
Lemma non_object_elements_are_skipped_witness :
  let r := Corner.parse (Device.root_of "edge1") MLSVC_JSON_RESOURCE (Some "info")
             Registry.empty in
  svcdb_calls (trace_of r) = []
  /\ final_db r = Registry.empty
  /\ List.length (skip_logs (trace_of r)) = 4%nat.
Proof.
  apply (@non_object_elements_are_skipped _ Registry.service_db Corner.platform
           (Device.root_of "edge1") MLSVC_JSON_RESOURCE (Some "info")
           (Device.root_of "edge1" ++ "/resource_description.json")%string
           Corner.scalars Registry.empty eq_refl eq_refl eq_refl).
  repeat constructor.
Defined.

(* ------------------------------------------------------------------ *)
(** ** Events: what reaches the registry and the file system *)

Section EventOutcomes.

Context {DB : Type} {R : ServiceDb DB} {P : Platform}.

(** X7.  For every event, the database calls of the handler are those of the
    three descriptors of the package, models first, then pipelines, then
    resources, when the event is the completed install of a resource package
    whose resource type and version can be looked up, and none for any other
    event; the database the handler leaves is the database before the event
    with these calls made one after the other.  A failure to release the
    package information changes nothing in this. *)
Theorem event_effect_is_replay (type package_name : string)
    (event_type : package_manager_event_type_e)
    (event_state : package_manager_event_state_e) (progress error : Z) (db : DB) :
  let r := _pkg_mgr_event_cb type package_name event_type event_state
             progress error db in
  svcdb_calls (trace_of r) = event_calls type package_name event_type event_state
  /\ final_db r
     = replay (event_calls type package_name event_type event_state) db.
Proof.
  intros r.
  pose proof (summary_event_cb type package_name event_type event_state
                progress error db) as H.
  unfold summary in H. fold r in H. injection H as H1 H2 _. auto.
Qed.

(** X8.  An event that is not the completed install of a resource package
    (another event type, another state, or a category tag other than rpk):
    the handler makes no database call and leaves the database as it was,
    and the only file accesses it can make are the directory test and the
    listing of the package path, for a started uninstall or a completed
    update of a resource package. *)
Theorem other_events_leave_registry (type package_name : string)
    (event_type : package_manager_event_type_e)
    (event_state : package_manager_event_state_e) (progress error : Z) (db : DB) :
  event_type <> PACKAGE_MANAGER_EVENT_TYPE_INSTALL
  \/ event_state <> PACKAGE_MANAGER_EVENT_STATE_COMPLETED
  \/ ~ ascii_ci_eq type "rpk" ->
  let r := _pkg_mgr_event_cb type package_name event_type event_state
             progress error db in
  svcdb_calls (trace_of r) = []
  /\ final_db r = db
  /\ file_accesses (trace_of r)
     = if is_listing event_type event_state && (g_ascii_strcasecmp type "rpk" =? 0)
       then listing_accesses (pkg_path_of package_name)
       else [].
Proof.
  intros Hother r.
  pose proof (summary_event_cb type package_name event_type event_state
                progress error db) as H.
  unfold summary in H. fold r in H. injection H as H1 H2 H3.
  assert (Hno : is_install_completed event_type event_state
                && (g_ascii_strcasecmp type "rpk" =? 0) = false).
  { destruct (is_install_completed event_type event_state) eqn:Hi;
      [|reflexivity].
    destruct (g_ascii_strcasecmp type "rpk" =? 0) eqn:Ht; [|reflexivity].
    apply Z.eqb_eq, g_ascii_strcasecmp_zero in Ht.
    destruct event_type, event_state; try discriminate.
    destruct Hother as [Ho|[Ho|Ho]]; contradiction. }
  assert (Hcalls : event_calls type package_name event_type event_state = []).
  { unfold event_calls. rewrite Hno. reflexivity. }
  rewrite H1, H2, H3, Hcalls. split; [reflexivity|split; [reflexivity|]].
  unfold event_accesses.
  destruct (g_ascii_strcasecmp type "rpk" =? 0) eqn:Ht; cbn [negb].
  - rewrite andb_true_r in Hno. rewrite Hno, orb_false_r, andb_true_r.
    destruct (is_res_copy event_type) eqn:Hc; [|reflexivity].
    destruct event_type; try discriminate. reflexivity.
  - rewrite orb_true_r, andb_false_r. reflexivity.
Qed.

(** X9.  The completed install of a resource package whose resource type
    and version are looked up: the database calls are those of the model
    descriptor, then those of the pipeline descriptor, then those of the
    resource descriptor, each read from the directory of the resource type
    under the package path and each with the app-info composed from the
    package id, the type and the version.  A descriptor that is missing or
    does not load contributes nothing and holds up none of the others. *)
Theorem install_registers_kinds_in_order (type package_name : string)
    (res_type res_version : string) (progress error : Z) (db : DB) :
  ascii_ci_eq type "rpk" ->
  lookup_resource_info package_name = Some (res_type, res_version) ->
  let r := _pkg_mgr_event_cb type package_name
             PACKAGE_MANAGER_EVENT_TYPE_INSTALL
             PACKAGE_MANAGER_EVENT_STATE_COMPLETED progress error db in
  let calls_of kind :=
    descriptor_calls (descriptor_dir package_name res_type) kind
      (Some (_get_app_info package_name res_type res_version)) in
  svcdb_calls (trace_of r)
  = calls_of MLSVC_JSON_MODEL ++ calls_of MLSVC_JSON_PIPELINE
    ++ calls_of MLSVC_JSON_RESOURCE
  /\ Forall (fun c => call_kind c = MLSVC_JSON_MODEL) (calls_of MLSVC_JSON_MODEL)
  /\ Forall (fun c => call_kind c = MLSVC_JSON_PIPELINE) (calls_of MLSVC_JSON_PIPELINE)
  /\ Forall (fun c => call_kind c = MLSVC_JSON_RESOURCE) (calls_of MLSVC_JSON_RESOURCE).
Proof.
  intros Htag Hlookup r calls_of.
  pose proof (summary_event_cb type package_name
                PACKAGE_MANAGER_EVENT_TYPE_INSTALL
                PACKAGE_MANAGER_EVENT_STATE_COMPLETED progress error db) as H.
  unfold summary in H. fold r in H. injection H as H1 _ _.
  apply g_ascii_strcasecmp_zero, Z.eqb_eq in Htag.
  split; [|repeat split; apply descriptor_calls_kind].
  rewrite H1. unfold event_calls. cbn [is_install_completed andb].
  rewrite Htag, Hlookup. unfold all_kinds. cbn [flat_map].
  rewrite app_nil_r. reflexivity.
Qed.

Lemma event_calls_app_info (type package_name : string)
    (event_type : package_manager_event_type_e)
    (event_state : package_manager_event_state_e) :
  Forall
    (fun c =>
       forall app_info,
         call_app_info c = Some app_info ->
         exists res_type res_version,
           lookup_resource_info package_name = Some (res_type, res_version)
           /\ app_info = _get_app_info package_name res_type res_version)
    (event_calls type package_name event_type event_state).
Proof.
  unfold event_calls.
  destruct (is_install_completed event_type event_state
            && (g_ascii_strcasecmp type "rpk" =? 0)); [|constructor].
  destruct (lookup_resource_info package_name) as [[res_type res_version]|];
    [|constructor].
  apply Forall_flat_map_intro. intros kind.
  eapply Forall_impl;
    [|apply (descriptor_calls_app_info (descriptor_dir package_name res_type) kind
               (_get_app_info package_name res_type res_version))].
  intros c Hc app_info Hsome.
  exists res_type, res_version. split; [reflexivity|].
  destruct Hc as [Hc|Hc]; rewrite Hc in Hsome; [discriminate|].
  injection Hsome as <-. reflexivity.
Qed.

(** X10.  Every model add and every resource add the handler makes, for any
    event, hands the database the same app-info: the one composed from the
    package id of the event and the resource type and version looked up for
    that package. *)
Theorem adds_carry_event_app_info (type package_name : string)
    (event_type : package_manager_event_type_e)
    (event_state : package_manager_event_state_e) (progress error : Z) (db : DB) :
  Forall
    (fun c =>
       forall app_info,
         call_app_info c = Some app_info ->
         exists res_type res_version,
           lookup_resource_info package_name = Some (res_type, res_version)
           /\ app_info = _get_app_info package_name res_type res_version)
    (svcdb_calls
       (trace_of (_pkg_mgr_event_cb type package_name event_type event_state
                    progress error db))).
Proof.
  pose proof (summary_event_cb type package_name event_type event_state
                progress error db) as H.
  unfold summary in H. injection H as H1 _ _. rewrite H1.
  apply event_calls_app_info.
Qed.

(** X11.  In the database calls of any event, every delete asks for all
    versions (version 0 for a model) and is followed at once by the add of
    the same name: the handler never deletes a name without trying, as its
    very next call, to register it again. *)
Theorem deletes_always_precede_adds (type package_name : string)
    (event_type : package_manager_event_type_e)
    (event_state : package_manager_event_state_e) (progress error : Z) (db : DB) :
  deletes_precede_adds
    (svcdb_calls
       (trace_of (_pkg_mgr_event_cb type package_name event_type event_state
                    progress error db))) = true.
Proof.
  pose proof (summary_event_cb type package_name event_type event_state
                progress error db) as H.
  unfold summary in H. injection H as H1 _ _. rewrite H1.
  unfold event_calls.
  destruct (is_install_completed event_type event_state
            && (g_ascii_strcasecmp type "rpk" =? 0)); [|reflexivity].
  destruct (lookup_resource_info package_name) as [[res_type res_version]|];
    [|reflexivity].
  apply deletes_precede_adds_flat_map. intros kind.
  apply descriptor_calls_guarded.
Qed.

(** X12.  The files and directories the handler touches, for any event and
    in this order: for the completed install of a resource package with its
    metadata, the model descriptor, the pipeline descriptor and the resource
    descriptor, each tested once and loaded once if the test passed; for a
    started uninstall or a completed update of a resource package, the
    package path, tested and, if it is a directory, opened; nothing for any
    other event, for a resource copy and for a package of another
    category. *)
Theorem event_file_accesses (type package_name : string)
    (event_type : package_manager_event_type_e)
    (event_state : package_manager_event_state_e) (progress error : Z) (db : DB) :
  file_accesses
    (trace_of (_pkg_mgr_event_cb type package_name event_type event_state
                 progress error db))
  = event_accesses type package_name event_type event_state.
Proof.
  pose proof (summary_event_cb type package_name event_type event_state
                progress error db) as H.
  unfold summary in H. injection H as _ _ H3. exact H3.
Qed.

(** X13.  [_pkg_mgr_echo_pkg_path_info] never changes the database.  When
    the path is no directory it logs nothing; when it is one it logs the
    path and, if the directory opens, one line for each entry, in the order
    the entries are read. *)
Theorem echo_lists_directory (pkg_path : string) (db : DB) :
  _pkg_mgr_echo_pkg_path_info pkg_path db
  = (tt, db,
     EvFileTest pkg_path G_FILE_TEST_IS_DIR
     :: (if g_file_test pkg_path G_FILE_TEST_IS_DIR
         then EvLog LOG_INFO (MsgPackagePath pkg_path)
              :: EvDirOpen pkg_path
              :: match g_dir_open pkg_path with
                 | Some names => map (fun n => EvLog LOG_INFO (MsgFile n)) names
                 | None => []
                 end
         else [])).
Proof.
  unfold _pkg_mgr_echo_pkg_path_info, bind, file_test, dir_open, ml_logi, emit.
  destruct (g_file_test pkg_path G_FILE_TEST_IS_DIR); [|reflexivity].
  destruct (g_dir_open pkg_path) as [names|]; cbn beta iota; [|reflexivity].
  rewrite log_file_names_run. reflexivity.
Qed.

End EventOutcomes.

(** Package app1 is moved: not an install. *)
Lemma other_events_leave_registry_witness :
  let r := Device.handle "rpk" "app1" PACKAGE_MANAGER_EVENT_TYPE_MOVE
             PACKAGE_MANAGER_EVENT_STATE_COMPLETED Registry.empty in
  svcdb_calls (trace_of r) = []
  /\ final_db r = Registry.empty
  /\ file_accesses (trace_of r) = [].
Proof.
  apply (@other_events_leave_registry _ Registry.service_db Device.platform
           "rpk" "app1" PACKAGE_MANAGER_EVENT_TYPE_MOVE
           PACKAGE_MANAGER_EVENT_STATE_COMPLETED 100 0 Registry.empty).
  left. discriminate.
Defined.

(** Package app1 is installed on the first device: a model descriptor, no
    pipeline descriptor and a resource descriptor. *)
Lemma install_registers_kinds_in_order_witness :
  let r := Device.handle "Rpk" "app1" PACKAGE_MANAGER_EVENT_TYPE_INSTALL
             PACKAGE_MANAGER_EVENT_STATE_COMPLETED Registry.empty in
  let app_info := @_get_app_info Device.platform "app1" "rpk" "2" in
  svcdb_calls (trace_of r)
  = [CallModelAdd "m1" "m1.tflite" true EmptyString app_info]
    ++ []
    ++ [CallResourceDelete "r1";
        CallResourceAdd "r1" "r1.dat" EmptyString app_info;
        CallResourceAdd "r3" "r3.dat" "third" app_info].
Proof.
  exact (proj1
           (@install_registers_kinds_in_order _ Registry.service_db Device.platform
              "Rpk" "app1" "rpk" "2" 100 0 Registry.empty eq_refl eq_refl)).
Defined.

(* ================================================================== *)
(** * The package manager subscription and main.c *)

Section DaemonFacts.

Context {HOST : Host}.

(** X14.  [pkg_mgr_init] returns 0 when the creation of the handle, the
    subscription to the status types and the registration of the callback all
    succeed, and -1 otherwise.  It never destroys a handle: the handle
    variable is left holding what the creation put there, also when a later
    step fails, and the other variables are untouched.  The callback is
    registered only after the subscription succeeded, on the handle that was
    created. *)
Theorem pkg_mgr_init_outcome (g : globals) :
  let r := pkg_mgr_init g in
  let handle := snd (package_manager_create (pkg_mgr g)) in
  result_of r = (if subscription_succeeds (pkg_mgr g) then 0 else -1)
  /\ globals_of r = set_pkg_mgr handle g
  /\ filter is_destroy (calls_of r) = []
  /\ (forall h,
        In (DPackageManagerSetEventCb h) (calls_of r) ->
        h = handle
        /\ fst (package_manager_create (pkg_mgr g)) = PACKAGE_MANAGER_ERROR_NONE
        /\ package_manager_set_event_status handle monitored_status
           = PACKAGE_MANAGER_ERROR_NONE).
Proof.
  cbv zeta. unfold subscription_succeeds. daemon_unfold.
  destruct (fst (package_manager_create (pkg_mgr g)) =? PACKAGE_MANAGER_ERROR_NONE)
    eqn:E1; daemon_compute;
    [destruct (package_manager_set_event_status
                 (snd (package_manager_create (pkg_mgr g))) monitored_status
               =? PACKAGE_MANAGER_ERROR_NONE) eqn:E2;
     daemon_compute;
     [destruct (package_manager_set_event_cb
                  (snd (package_manager_create (pkg_mgr g)))
                =? PACKAGE_MANAGER_ERROR_NONE) eqn:E3;
      daemon_compute|]|];
    (split; [reflexivity|split; [reflexivity|split; [reflexivity|]]]);
    intros h Hin; simpl in Hin;
    repeat (destruct Hin as [Hin|Hin]; try discriminate; try contradiction);
    injection Hin as <-; apply Z.eqb_eq in E1, E2; auto.
Qed.

(** X15.  [pkg_mgr_deinit] destroys the handle the variable holds, once, and
    returns 0 when that succeeds and -1 otherwise.  It changes no variable:
    afterwards the handle variable still holds the handle that was
    destroyed. *)
Theorem pkg_mgr_deinit_outcome (g : globals) :
  let r := pkg_mgr_deinit g in
  result_of r
  = (if package_manager_destroy (pkg_mgr g) =? PACKAGE_MANAGER_ERROR_NONE
     then 0 else -1)
  /\ globals_of r = g
  /\ filter is_package_manager_call (calls_of r)
     = [DPackageManagerDestroy (pkg_mgr g)].
Proof.
  cbv zeta. daemon_unfold.
  destruct (package_manager_destroy (pkg_mgr g) =? PACKAGE_MANAGER_ERROR_NONE);
    repeat split.
Qed.

(** X16.  [pkg_mgr_init] followed by [pkg_mgr_deinit], as [main] runs them:
    whatever [pkg_mgr_init] returned, the handle its creation step left in
    the variable is destroyed exactly once, so a handle that was created
    before a later step of the initialization failed is released; when the
    creation failed, the destroy is called on what the variable then
    holds. *)
Theorem init_then_deinit_releases_handle (g : globals) :
  let r := dbind pkg_mgr_init (fun _ => pkg_mgr_deinit) g in
  filter is_destroy (calls_of r)
  = [DPackageManagerDestroy (snd (package_manager_create (pkg_mgr g)))].
Proof.
  cbv zeta. daemon_unfold. daemon_cases; reflexivity.
Qed.

Lemma arguments_parse_true (argv : list string) (g : globals) :
  arguments_parse argv g = true ->
  g_option_context_new = true
  /\ parse_ok (g_option_context_parse argv (verbose g) (is_session g) (db_path g))
     = true.
Proof. unfold arguments_parse. intros Hp. apply andb_true_iff in Hp. exact Hp. Qed.

(** X17.  When the command line does not parse, because no option context
    can be made ([parse_args] returns -ENOMEM) or because the parse fails
    ([parse_args] returns -EINVAL), [main] returns -EINVAL in both cases.  It
    then neither opens the database nor creates the package manager handle
    nor runs the main loop: of these calls only the closing of the database
    is made, as the last call, without the database having been opened.  The
    option variables are reset and the other variables are untouched. *)
Theorem main_bad_arguments (argv : list string) (g : globals) :
  arguments_parse argv g = false ->
  let r := main argv g in
  result_of r = - EINVAL
  /\ result_of (parse_args argv g)
     = (if g_option_context_new then - EINVAL else - ENOMEM)
  /\ filter is_milestone (calls_of r) = [DSvcdbFinalize]
  /\ last (calls_of r) DMainLoopRun = DSvcdbFinalize
  /\ globals_of r
     = {| g_mainloop := g_mainloop g; verbose := false; is_session := false;
          db_path := None; pkg_mgr := pkg_mgr g |}.
Proof.
  intros Hargs. cbv zeta. unfold arguments_parse in Hargs. daemon_unfold.
  destruct g_option_context_new; daemon_compute.
  - rewrite Hargs. daemon_compute. repeat split.
  - repeat split.
Qed.

(** X18.  When the command line parses, [main] returns 0, whatever the post
    init, the package manager subscription and its release return.  The
    database is opened first, on the path given with the path option or
    else on the default path; then the package manager handle is created;
    then the main loop runs; after it the handle left by the creation is
    destroyed; the closing of the database is the last call.  At the end the
    option variables are reset and no main loop is held. *)
Theorem main_runs_daemon (argv : list string) (g : globals) :
  arguments_parse argv g = true ->
  let r := main argv g in
  let parsed := g_option_context_parse argv (verbose g) (is_session g) (db_path g) in
  let path := match parsed_path parsed with Some p => p | None => DB_PATH end in
  let handle := snd (package_manager_create (pkg_mgr g)) in
  result_of r = 0
  /\ filter is_milestone (calls_of r)
     = [DSvcdbInitialize path; DPackageManagerCreate; DMainLoopRun;
        DPackageManagerDestroy handle; DSvcdbFinalize]
  /\ last (calls_of r) DMainLoopRun = DSvcdbFinalize
  /\ globals_of r
     = {| g_mainloop := None; verbose := false; is_session := false;
          db_path := None; pkg_mgr := handle |}.
Proof.
  intros Hargs. destruct (arguments_parse_true _ _ Hargs) as [Hnew Hparse].
  cbv zeta. daemon_unfold.
  rewrite Hnew. daemon_compute. rewrite Hparse. daemon_compute.
  destruct (parsed_path
              (g_option_context_parse argv (verbose g) (is_session g) (db_path g)));
    daemon_compute; daemon_cases; repeat split.
Qed.

(** X19.  When the command line parses, [main] logs that the system cannot be
    initialized exactly when the bus name is refused with a negative result,
    that the package manager cannot be initialized exactly when one of the
    three steps of the subscription fails, and that the package manager
    cannot be finalized exactly when the destroy of the handle fails; none
    of the three stops the daemon. *)
Theorem main_reports_failed_startup (argv : list string) (g : globals) :
  arguments_parse argv g = true ->
  let r := main argv g in
  let handle := snd (package_manager_create (pkg_mgr g)) in
  (In (DLog LOG_ERROR MsgCannotInitSystem) (calls_of r)
   <-> gdbus_get_name DBUS_ML_BUS_NAME < 0)
  /\ (In (DLog LOG_ERROR MsgCannotInitPackageManager) (calls_of r)
      <-> subscription_succeeds (pkg_mgr g) = false)
  /\ (In (DLog LOG_WARN MsgCannotFinalizePackageManager) (calls_of r)
      <-> package_manager_destroy handle <> PACKAGE_MANAGER_ERROR_NONE)
  /\ In DMainLoopRun (calls_of r).
Proof.
  intros Hargs. destruct (arguments_parse_true _ _ Hargs) as [Hnew Hparse].
  cbv zeta. unfold subscription_succeeds. daemon_unfold.
  rewrite Hnew. daemon_compute. rewrite Hparse. daemon_compute.
  destruct (parsed_path
              (g_option_context_parse argv (verbose g) (is_session g) (db_path g)));
    daemon_compute; daemon_cases;
    repeat match goal with
           | E : (_ <? _) = true |- _ => apply Z.ltb_lt in E
           | E : (_ <? _) = false |- _ => apply Z.ltb_ge in E
           | E : (_ =? _) = true |- _ => apply Z.eqb_eq in E
           | E : (_ =? _) = false |- _ => apply Z.eqb_neq in E
           end;
    repeat match goal with
           | E : ?a = _ |- context [?a =? PACKAGE_MANAGER_ERROR_NONE] => rewrite E
           end;
    cbn [andb Z.eqb];
    (split; [|split; [|split]]);
    try (split; [intros Hin; simpl in Hin;
                 repeat (destruct Hin as [Hin|Hin];
                         try discriminate; try contradiction);
                 try lia; try reflexivity; try assumption
                |intros Hc; simpl;
                 try lia; try discriminate; try contradiction; tauto]);
    try (simpl; tauto).
Qed.

End DaemonFacts.

(** The option -p comes without its argument. *)
Lemma main_bad_arguments_witness :
  let r := @main Board.host ["ml-agent"; "-p"] (@initial_globals Board.host) in
  result_of r = -22
  /\ result_of (@parse_args Board.host ["ml-agent"; "-p"] (@initial_globals Board.host))
     = -22
  /\ filter is_milestone (calls_of r) = [DSvcdbFinalize]
  /\ last (calls_of r) DMainLoopRun = DSvcdbFinalize
  /\ globals_of r = @initial_globals Board.host.
Proof.
  exact (@main_bad_arguments Board.host ["ml-agent"; "-p"]
           (@initial_globals Board.host) eq_refl).
Defined.

(** The daemon is started on the session bus with a database path. *)
Lemma main_runs_daemon_witness :
  let r := @main Board.host ["ml-agent"; "-s"; "-p"; "/tmp/db"]
             (@initial_globals Board.host) in
  result_of r = 0
  /\ filter is_milestone (calls_of r)
     = [DSvcdbInitialize "/tmp/db"; DPackageManagerCreate; DMainLoopRun;
        @DPackageManagerDestroy Board.host (Some 1%nat); DSvcdbFinalize]
  /\ last (calls_of r) DMainLoopRun = DSvcdbFinalize
  /\ globals_of r = @Build_globals Board.host None false false None (Some 1%nat).
Proof.
  exact (@main_runs_daemon Board.host ["ml-agent"; "-s"; "-p"; "/tmp/db"]
           (@initial_globals Board.host) eq_refl).
Defined.

(** The daemon is started where there is neither a bus name to have nor a
    package manager. *)
Lemma main_reports_failed_startup_witness :
  let r := @main Board.bare ["ml-agent"] (@initial_globals Board.bare) in
  In (DLog LOG_ERROR MsgCannotInitSystem) (calls_of r)
  /\ In (DLog LOG_ERROR MsgCannotInitPackageManager) (calls_of r)
  /\ In (DLog LOG_WARN MsgCannotFinalizePackageManager) (calls_of r)
  /\ In DMainLoopRun (calls_of r).
Proof.
  destruct (@main_reports_failed_startup Board.bare ["ml-agent"]
              (@initial_globals Board.bare) eq_refl) as (H1 & H2 & H3 & H4).
  split; [apply H1; reflexivity|].
  split; [apply H2; reflexivity|].
  split; [apply H3; discriminate|exact H4].
Defined.

(* ------------------------------------------------------------------ *)
(** ** App-info texts tell packages apart *)

(** X20.  On a platform whose generated JSON text can be parsed back (there
    is a parser that reads back the text of every object with string
    members), two app-info texts are equal only when they were composed
    from the same package id, the same resource type and the same resource
    version: the provenance recorded with an artifact names one package. *)
Theorem app_info_injective {P : Platform} :
  (exists from_data : string -> option JsonNode,
     forall o : JsonObject,
       string_members o ->
       from_data (json_generator_to_data (JsonObjectNode o))
       = Some (JsonObjectNode o)) ->
  forall p1 t1 v1 p2 t2 v2 : string,
    _get_app_info p1 t1 v1 = _get_app_info p2 t2 v2 ->
    p1 = p2 /\ t1 = t2 /\ v1 = v2.
Proof.
  intros [from_data Hrt] p1 t1 v1 p2 t2 v2 Heq.
  destruct (app_info_fields_read_back from_data Hrt p1 t1 v1) as (Hp1 & Ht1 & Hv1).
  destruct (app_info_fields_read_back from_data Hrt p2 t2 v2) as (Hp2 & Ht2 & Hv2).
  cbv zeta in *. rewrite Heq in Hp1, Ht1, Hv1.
  rewrite Hp1 in Hp2. rewrite Ht1 in Ht2. rewrite Hv1 in Hv2.
  injection Hp2 as ->. injection Ht2 as ->. injection Hv2 as ->.
  repeat split.
Qed.

(** The generator of the first device can be parsed back by the reader of
    [JsonText]. *)
Lemma app_info_injective_witness :
  "app1" = "app1" /\ "rpk" = "rpk" /\ "2" = "2".
Proof.
  exact (@app_info_injective Device.platform
           (ex_intro _ JsonText.from_data json_text_round_trip)
           "app1" "rpk" "2" "app1" "rpk" "2" eq_refl).
Defined.

(* ------------------------------------------------------------------ *)
(** ** What is reported for a model *)

Section ModelReport.

Context {DB : Type} {R : ServiceDb DB} {P : Platform}.

(** X21.  For a valid model record the add is made on the database the
    optional delete left, whether or not that delete succeeded, and its
    outcome is the last thing logged for the record: when the database
    returns 0, the information that the model is registered with the version
    the database assigned to this very add, and otherwise the error that the
    registration failed.  The database left is the one the add returned. *)
Theorem model_registration_is_reported
    (json_file : string) (app_info : option string)
    (array : option JsonArray) (root : option JsonNode) (i : nat)
    (name model : string) (db : DB) :
  let record := record_at array root i in
  record_field record "name" = Some name ->
  record_field record "model" = Some model ->
  let db1 :=
    if flag_is_true (record_field record "clear")
    then snd (svcdb_model_delete name 0 db) else db in
  let added :=
    svcdb_model_add name model (flag_is_true (record_field record "activate"))
      (or_empty (record_field record "description")) (or_empty app_info) db1 in
  let r := _parse_json_body json_file MLSVC_JSON_MODEL app_info array root i db in
  final_db r = snd added
  /\ last (trace_of r) (EvJsonLoad json_file)
     = if fst (fst added) =? 0
       then EvLog LOG_INFO (MsgModelRegistered name (snd (fst added)))
       else EvLog LOG_ERROR (MsgModelRegisterFailed name).
Proof.
  intros record Hname Hmodel. cbv zeta.
  unfold record_field, record in Hname, Hmodel |- *.
  unfold _parse_json_body, json_array_get_object_element, record_at in *.
  replace (match array with
           | Some a => json_node_get_object (nth_error a i)
           | None => json_node_get_object root
           end)
    with (json_node_get_object
            match array with Some a => nth_error a i | None => root end)
    by (destruct array; reflexivity).
  rewrite Hname, Hmodel.
  destruct (flag_is_true
              (json_object_get_string_member
                 (json_node_get_object
                    match array with Some a => nth_error a i | None => root end)
                 "clear"));
    unfold bind, svcdb, ret, ml_logi, ml_loge, emit, trace_of, final_db;
    simpl; step_db_ops; split; reflexivity.
Qed.

End ModelReport.

(** The model of package app1 is registered in an empty registry: the
    registry hands out version 1 and that version is logged. *)
Lemma model_registration_is_reported_witness :
  let r := @_parse_json_body _ Registry.service_db "model_description.json"
             MLSVC_JSON_MODEL (Some "info") None
             (Some (JsonObjectNode Device.m1)) 0 Registry.empty in
  map Registry.model_version (Registry.models (final_db r)) = [1]
  /\ last (trace_of r) (EvJsonLoad "model_description.json")
     = EvLog LOG_INFO (MsgModelRegistered "m1" 1).
Proof.
  destruct (@model_registration_is_reported _ Registry.service_db
              "model_description.json" (Some "info") None
              (Some (JsonObjectNode Device.m1)) 0%nat "m1" "m1.tflite"
              Registry.empty eq_refl eq_refl) as [Hdb Hlog].
  split; [rewrite Hdb; reflexivity|exact Hlog].
Defined.
